(** * Media authenticity decision engine: policy rules, score aggregation,
      audio signal fusion.

    Shallow embedding of
      - [agent/policy_rules.py]            (module [Policy]),
      - [app/config.py]                    (record [Settings]),
      - [inference/temporal_aggregation.py] (modules [Aggregation],
        [AggregationFloat]),
      - [inference/audio_infer.py]          (modules [Audio], [AudioRounded],
        [AudioBinary64], [AudioChecks], [AudioChecksRounded]),
      - [agent/explanation_engine.py]       (module [Explanation]),
      - [preprocessing/frame_sampler.py] and the frame generator of
        [preprocessing/video_loader.py]     (module [Frames]).

    Number model.  A Python [float] is a finite value, an infinity or nan
    ([pyfloat]); finite values are exact rationals ([Q]), or reals ([R])
    where a square root is taken.  The cast to binary32 is the exact
    rounding [to_float32]; the rounding of a binary64 operation is a
    parameter [rnd] with a bound on its error, and module [AudioBinary64]
    runs the weighted sum on binary64 numbers themselves.  Modules
    [Aggregation] and [Audio] are the same computations in exact
    arithmetic, on finite values. *)

From Stdlib Require Import List String Bool Arith ZArith Lia.
From Stdlib Require Import QArith Qminmax Qround.
From Stdlib Require Import Permutation Sorted.
From Stdlib Require Import Reals Lra.
From Stdlib Require Lqa.
From Stdlib Require PrimFloat.
Import ListNotations.

Local Open Scope string_scope.

(** ** Comparisons on rationals, as booleans *)

(** Python's [x < y] on floats. *)
Definition Qltb (x y : Q) : bool := negb (Qle_bool y x).

(** ** Python floats *)

(** A Python [float]: a finite value, an infinity or nan. *)
Inductive pyfloat : Type :=
| Finite (q : Q)
| PosInf
| NegInf
| NaN.

(** To the nearest integer, ties to even. *)
Definition round_half_even (x : Q) : Z :=
  let f := Qfloor x in
  match Qcompare (x - inject_Z f) (1 # 2) with
  | Lt => f
  | Gt => (f + 1)%Z
  | Eq => if Z.even f then f else (f + 1)%Z
  end.

(** [2 ** e]. *)
Definition pow2 (e : Z) : Q :=
  match e with
  | Z0 => 1%Q
  | Zpos p => inject_Z (2 ^ Zpos p)
  | Zneg p => (1 # (2 ^ p))%Q
  end.

(** For [q > 0], the exponent [e] with [2 ** e <= q < 2 ** (e + 1)]. *)
Definition floor_log2 (q : Q) : Z :=
  let e0 := (Z.log2 (Qnum q) - Z.log2 (Zpos (Qden q)))%Z in
  if Qle_bool (pow2 e0) q then e0 else (e0 - 1)%Z.

(** For [q > 0], the nearest value with [prec] significant bits and a last
    bit of weight at least [2 ** emin], ties to even. *)
Definition round_positive (prec emin : Z) (q : Q) : Q :=
  let ulp := pow2 (Z.max (floor_log2 q - prec + 1) emin) in
  (inject_Z (round_half_even (q / ulp)) * ulp)%Q.

(** The cast of [np.array(..., dtype=np.float32)]: rounding to binary32
    (24 significant bits, smallest subnormal [2 ** -149]), to an infinity
    from [2 ** 128] on. *)
Definition to_float32 (x : pyfloat) : pyfloat :=
  match x with
  | Finite q =>
      match Qcompare q 0 with
      | Eq => Finite 0
      | Gt =>
          let r := round_positive 24 (-149) q in
          if Qle_bool (pow2 128) r then PosInf else Finite r
      | Lt =>
          let r := round_positive 24 (-149) (- q) in
          if Qle_bool (pow2 128) r then NegInf else Finite (- r)
      end
  | PosInf => PosInf
  | NegInf => NegInf
  | NaN => NaN
  end.

(** ** app/config.py *)

(** The attributes of [class Settings] that the decision code reads. *)
Record Settings : Type := mkSettings {
  RUNTIME_MODE : string;
  AUDIO_DEEPFAKE_THRESHOLD_HIGH : Q;
  AUDIO_DEEPFAKE_THRESHOLD_LOW : Q;
  DEEPFAKE_THRESHOLD_HIGH : Q;
  DEEPFAKE_THRESHOLD_LOW : Q;
  ENABLE_EVENT_LOGGING : bool
}.

(** [settings = Settings()]: the shipped, process-wide configuration. *)
Definition settings : Settings := {|
  RUNTIME_MODE := "EDGE_OFFLINE";
  AUDIO_DEEPFAKE_THRESHOLD_HIGH := 0.70;
  AUDIO_DEEPFAKE_THRESHOLD_LOW := 0.30;
  DEEPFAKE_THRESHOLD_HIGH := 0.75;
  DEEPFAKE_THRESHOLD_LOW := 0.40;
  ENABLE_EVENT_LOGGING := true
|}.

(** The same configuration with another runtime mode. *)
Definition with_runtime_mode (s : Settings) (mode : string) : Settings := {|
  RUNTIME_MODE := mode;
  AUDIO_DEEPFAKE_THRESHOLD_HIGH := AUDIO_DEEPFAKE_THRESHOLD_HIGH s;
  AUDIO_DEEPFAKE_THRESHOLD_LOW := AUDIO_DEEPFAKE_THRESHOLD_LOW s;
  DEEPFAKE_THRESHOLD_HIGH := DEEPFAKE_THRESHOLD_HIGH s;
  DEEPFAKE_THRESHOLD_LOW := DEEPFAKE_THRESHOLD_LOW s;
  ENABLE_EVENT_LOGGING := ENABLE_EVENT_LOGGING s
|}.

(** The same configuration with other video thresholds. *)
Definition with_thresholds (s : Settings) (low high : Q) : Settings := {|
  RUNTIME_MODE := RUNTIME_MODE s;
  AUDIO_DEEPFAKE_THRESHOLD_HIGH := AUDIO_DEEPFAKE_THRESHOLD_HIGH s;
  AUDIO_DEEPFAKE_THRESHOLD_LOW := AUDIO_DEEPFAKE_THRESHOLD_LOW s;
  DEEPFAKE_THRESHOLD_HIGH := high;
  DEEPFAKE_THRESHOLD_LOW := low;
  ENABLE_EVENT_LOGGING := ENABLE_EVENT_LOGGING s
|}.

(** ** Risk levels *)

(** Verdicts, risk levels, flags and actions are Python strings in the
    code.  The order LOW < MEDIUM < HIGH < CRITICAL is given by a rank;
    a string that names no level has none. *)
Definition risk_rank (r : string) : option nat :=
  if String.eqb r "LOW" then Some 0%nat
  else if String.eqb r "MEDIUM" then Some 1%nat
  else if String.eqb r "HIGH" then Some 2%nat
  else if String.eqb r "CRITICAL" then Some 3%nat
  else None.

Definition is_risk (r : string) : Prop := risk_rank r <> None.

(** [risk_le a b]: both are levels and [a] is at most [b]. *)
Definition risk_le (a b : string) : Prop :=
  match risk_rank a, risk_rank b with
  | Some m, Some n => (m <= n)%nat
  | _, _ => False
  end.

Definition risk_lt (a b : string) : Prop :=
  match risk_rank a, risk_rank b with
  | Some m, Some n => (m < n)%nat
  | _, _ => False
  end.

(** ** agent/policy_rules.py *)

Module Policy.

(** The dictionary returned by [apply_policy_rules]. *)
Record PolicyDecision : Type := mkDecision {
  verdict : string;
  risk_level : string;
  policy_applied : list string;
  action_required : string
}.

(** The three local variables the rules assign to. *)
Record Working : Type := mkWorking {
  final_verdict : string;
  final_risk_level : string;
  policy_flags : list string
}.

Definition start (verdict risk_level : string) : Working :=
  {| final_verdict := verdict;
     final_risk_level := risk_level;
     policy_flags := [] |}.

(** Rule 1: [if confidence > 0.98]. *)
Definition rule1_fires (confidence : Q) : bool := Qltb 0.98 confidence.

Definition rule1 (confidence : Q) (w : Working) : Working :=
  if rule1_fires confidence then
    {| final_verdict := final_verdict w;
       final_risk_level := "CRITICAL";
       policy_flags := policy_flags w ++ ["EXTREME_CONFIDENCE_LOCK"] |}
  else w.

(** Rule 2:
    [if settings.DEEPFAKE_THRESHOLD_LOW < confidence < settings.DEEPFAKE_THRESHOLD_HIGH]. *)
Definition rule2_fires (s : Settings) (confidence : Q) : bool :=
  Qltb (DEEPFAKE_THRESHOLD_LOW s) confidence
  && Qltb confidence (DEEPFAKE_THRESHOLD_HIGH s).

Definition rule2 (s : Settings) (confidence : Q) (w : Working) : Working :=
  if rule2_fires s confidence then
    {| final_verdict := "UNCERTAIN";
       final_risk_level := "MEDIUM";
       policy_flags := policy_flags w ++ ["REQUIRES_HUMAN_REVIEW"] |}
  else w.

(** Rule 3:
    [if settings.RUNTIME_MODE == "EDGE_OFFLINE" and final_verdict == "UNCERTAIN"]. *)
Definition rule3_fires (s : Settings) (w : Working) : bool :=
  String.eqb (RUNTIME_MODE s) "EDGE_OFFLINE"
  && String.eqb (final_verdict w) "UNCERTAIN".

Definition rule3 (s : Settings) (w : Working) : Working :=
  if rule3_fires s w then
    {| final_verdict := final_verdict w;
       final_risk_level := "HIGH";
       policy_flags := policy_flags w ++ ["OFFLINE_PRECAUTIONARY_ESCALATION"] |}
  else w.

(** [final_risk_level in ["HIGH", "CRITICAL"]]. *)
Definition needs_inspection (r : string) : bool :=
  String.eqb r "HIGH" || String.eqb r "CRITICAL".

(** The [return {...}] statement. *)
Definition finish (w : Working) : PolicyDecision :=
  {| verdict := final_verdict w;
     risk_level := final_risk_level w;
     policy_applied := policy_flags w;
     action_required :=
       if needs_inspection (final_risk_level w)
       then "MANUAL_INSPECTION" else "NONE" |}.

(** [apply_policy_rules(verdict, confidence, risk_level)]; the module-level
    [settings] it reads is the first argument. *)
Definition apply_policy_rules (s : Settings)
    (verdict : string) (confidence : Q) (risk_level : string)
    : PolicyDecision :=
  let w0 := start verdict risk_level in
  let w1 := rule1 confidence w0 in
  let w2 := rule2 s confidence w1 in
  let w3 := rule3 s w2 in
  finish w3.

(** The risk level on entry and after each of the three rules. *)
Definition risk_trace (s : Settings)
    (verdict : string) (confidence : Q) (risk_level : string)
    : list string :=
  let w0 := start verdict risk_level in
  let w1 := rule1 confidence w0 in
  let w2 := rule2 s confidence w1 in
  let w3 := rule3 s w2 in
  [final_risk_level w0; final_risk_level w1;
   final_risk_level w2; final_risk_level w3].

(** What a call yields: a value, or an exception of some kind. *)
Inductive outcome (A : Type) : Type :=
| Returned (a : A)
| Raised (kind : string).
Arguments Returned {A} a.
Arguments Raised {A} kind.

(** The body of [apply_policy_rules] has no [raise] and every path ends in
    its [return]: a call always yields the dictionary. *)
Definition call_apply_policy_rules (s : Settings)
    (verdict : string) (confidence : Q) (risk_level : string)
    : outcome PolicyDecision :=
  Returned (apply_policy_rules s verdict confidence risk_level).

(** A list of risk levels that never steps down. *)
Fixpoint nondecreasing (l : list string) : Prop :=
  match l with
  | a :: ((b :: _) as l') => risk_le a b /\ nondecreasing l'
  | _ => True
  end.

(** [threshold_low >= threshold_high] in the configuration. *)
Definition inverted_thresholds (s : Settings) : Prop :=
  (DEEPFAKE_THRESHOLD_HIGH s <= DEEPFAKE_THRESHOLD_LOW s)%Q.

End Policy.

(** ** inference/temporal_aggregation.py *)

Module Aggregation.
Local Open Scope Q_scope.

(** [np.clip(x, a_min, a_max)], elementwise: [minimum(a_max, maximum(x, a_min))]. *)
Definition np_clip (x a_min a_max : Q) : Q := Qmin (Qmax x a_min) a_max.

(** Ascending sort, as [np.percentile] and [np.median] order their input. *)
Fixpoint insert (x : Q) (l : list Q) : list Q :=
  match l with
  | [] => [x]
  | y :: l' => if Qle_bool x y then x :: y :: l' else y :: insert x l'
  end.

Fixpoint np_sort (l : list Q) : list Q :=
  match l with
  | [] => []
  | x :: l' => insert x (np_sort l')
  end.

(** [np.percentile(a, q)] with NumPy's default method (linear
    interpolation): the virtual index is [(n - 1) * q / 100]; the result
    interpolates between the sorted values at its floor and at the next
    index, with the fractional part as weight.  NumPy gives nan on an empty
    array; [aggregate_predictions] never calls it on one. *)
Definition np_percentile (a : list Q) (q : Q) : Q :=
  let s := np_sort a in
  let n := List.length a in
  let virtual_index := inject_Z (Z.of_nat n - 1) * (q / 100) in
  let previous_index := Z.to_nat (Qfloor virtual_index) in
  let next_index := Nat.min (previous_index + 1) (n - 1) in
  let gamma := virtual_index - inject_Z (Qfloor virtual_index) in
  let lo := nth previous_index s 0 in
  let hi := nth next_index s 0 in
  lo + gamma * (hi - lo).

(** [np.median(a)]: the middle sorted value, or the mean of the two middle
    ones when the length is even.  NumPy gives nan on an empty array;
    [aggregate_predictions] never calls it on one. *)
Definition np_median (a : list Q) : Q :=
  let s := np_sort a in
  let n := List.length a in
  if Nat.even n
  then (nth (n / 2 - 1) s 0 + nth (n / 2) s 0) / 2
  else nth (n / 2) s 0.

(** [scores = np.clip(np.array(predictions), 0.0, 1.0)], on the exact
    values; [AggregationFloat.clipped] casts them to binary32 first. *)
Definition clipped (predictions : list Q) : list Q :=
  map (fun x => np_clip x 0 1) predictions.

(** [scores[(scores >= lower) & (scores <= upper)]]: the boolean mask keeps
    the selected values in their original order. *)
Definition select (scores : list Q) (lower upper : Q) : list Q :=
  filter (fun x => Qle_bool lower x && Qle_bool x upper) scores.

(** [filtered_scores] as it stands before the median is taken. *)
Definition filtered (predictions : list Q) : list Q :=
  let scores := clipped predictions in
  let lower := np_percentile scores 5 in
  let upper := np_percentile scores 95 in
  let filtered_scores := select scores lower upper in
  if (List.length filtered_scores =? 0)%nat then scores else filtered_scores.

(** [aggregate_predictions(predictions)].  The [log_event] call records
    the counts and the score for audit and does not change the result; it
    is not modelled. *)
Definition aggregate_predictions (predictions : list Q) : Q :=
  match predictions with
  | [] => 0
  | _ :: _ => np_median (filtered predictions)
  end.

(** A score inside the unit interval. *)
Definition in01 (x : Q) : Prop := 0 <= x /\ x <= 1.

(** Lists equal entry by entry, up to equality of rationals. *)
Definition eqlist : list Q -> list Q -> Prop := Forall2 Qeq.

(** The ten per-face scores of the end-to-end scenario. *)
Definition scenario_scores : list Q :=
  [0.81; 0.79; 0.83; 0.80; 0.05; 0.82; 0.78; 0.84; 0.80; 0.77].

End Aggregation.

(** ** inference/temporal_aggregation.py, on floats *)

Module AggregationFloat.
Local Open Scope Q_scope.

(** An entry of the clipped binary32 array: nan ([None]) or a value. *)
Definition array : Type := list (option Q).

(** [np.clip(x, 0.0, 1.0)] on one entry: nan stays nan, the infinities
    become the bounds. *)
Definition np_clip (x : pyfloat) : option Q :=
  match x with
  | Finite q => Some (Aggregation.np_clip q 0 1)
  | PosInf => Some 1
  | NegInf => Some 0
  | NaN => None
  end.

(** [scores = np.clip(np.array(predictions, dtype=np.float32), 0.0, 1.0)]. *)
Definition clipped (predictions : list pyfloat) : array :=
  map (fun x => np_clip (to_float32 x)) predictions.

Definition has_nan (a : array) : bool :=
  existsb (fun x => match x with None => true | Some _ => false end) a.

(** The entries that are not nan. *)
Fixpoint values (a : array) : list Q :=
  match a with
  | [] => []
  | Some q :: a' => q :: values a'
  | None :: a' => values a'
  end.

(** [np.percentile(a, q)]: nan when an entry is nan. *)
Definition np_percentile (a : array) (q : Q) : option Q :=
  if has_nan a then None else Some (Aggregation.np_percentile (values a) q).

(** [np.median(a)]: nan when an entry is nan. *)
Definition np_median (a : array) : option Q :=
  if has_nan a then None else Some (Aggregation.np_median (values a)).

(** [x >= y] and [x <= y] on entries: false when either is nan. *)
Definition ge (x y : option Q) : bool :=
  match x, y with
  | Some a, Some b => Qle_bool b a
  | _, _ => false
  end.

Definition le (x y : option Q) : bool :=
  match x, y with
  | Some a, Some b => Qle_bool a b
  | _, _ => false
  end.

(** [scores[(scores >= lower) & (scores <= upper)]]. *)
Definition select (scores : array) (lower upper : option Q) : array :=
  filter (fun x => ge x lower && le x upper) scores.

(** [filtered_scores] as it stands before the median is taken. *)
Definition filtered (predictions : list pyfloat) : array :=
  let scores := clipped predictions in
  let lower := np_percentile scores 5 in
  let upper := np_percentile scores 95 in
  let filtered_scores := select scores lower upper in
  if (List.length filtered_scores =? 0)%nat then scores else filtered_scores.

(** [float(...)] of an entry. *)
Definition to_pyfloat (x : option Q) : pyfloat :=
  match x with
  | Some q => Finite q
  | None => NaN
  end.

(** [aggregate_predictions(predictions)] on Python floats.  The scores
    are the binary32 numbers the array holds.  The interpolation inside
    the percentiles and the mean of the two middle values are exact here,
    where NumPy rounds them to the nearest float, a number between the
    same two scores; [log_event] is not modelled. *)
Definition aggregate_predictions (predictions : list pyfloat) : pyfloat :=
  match predictions with
  | [] => Finite 0
  | _ :: _ => to_pyfloat (np_median (filtered predictions))
  end.

(** The clipped binary32 value of a score that is not nan. *)
Definition score_value (x : pyfloat) : Q :=
  match np_clip (to_float32 x) with
  | Some q => q
  | None => 0
  end.

(** The ten per-face scores of the end-to-end scenario. *)
Definition scenario_scores : list pyfloat :=
  map Finite Aggregation.scenario_scores.

End AggregationFloat.

(** ** inference/audio_infer.py *)

Module Audio.
Local Open Scope R_scope.

(** A Python [dict] from signal names to scores, in insertion order. *)
Definition dict : Type := list (string * R).

(** [d[k]]; [None] stands for the [KeyError] of a missing key. *)
Fixpoint getitem (d : dict) (k : string) : option R :=
  match d with
  | [] => None
  | (k', v) :: d' => if String.eqb k k' then Some v else getitem d' k
  end.

(** [list(d.values())]. *)
Definition values (d : dict) : list R := map snd d.

(** The [signals] dictionary [analyze_audio] builds from its five checks;
    the checks themselves (librosa features of the waveform) are inputs
    here. *)
Definition make_signals (spectral pitch energy high_freq temporal : R) : dict :=
  [("spectral_inconsistency", spectral);
   ("pitch_abnormality", pitch);
   ("energy_gaps", energy);
   ("high_freq_artifacts", high_freq);
   ("temporal_discontinuity", temporal)].

(** The [weights] dictionary of [analyze_audio]. *)
Definition weights : dict :=
  [("spectral_inconsistency", 0.25);
   ("pitch_abnormality", 0.20);
   ("energy_gaps", 0.15);
   ("high_freq_artifacts", 0.25);
   ("temporal_discontinuity", 0.15)].

(** [sum(signals[k] * weights[k] for k in weights)], over the keys [ks]
    still to visit and the running total [acc], in exact arithmetic;
    [AudioRounded.weighted_sum] rounds each operation. *)
Fixpoint weighted_sum (signals w : dict) (ks : list string) (acc : R)
    : option R :=
  match ks with
  | [] => Some acc
  | k :: ks' =>
      match getitem signals k, getitem w k with
      | Some s, Some wk => weighted_sum signals w ks' (acc + s * wk)
      | _, _ => None
      end
  end.

Definition final_score (signals : dict) : option R :=
  weighted_sum signals weights (map fst weights) 0.

(** [np.mean] and [np.std] (population standard deviation, [ddof = 0]). *)
Definition np_sum (l : list R) : R := fold_left Rplus l 0.

Definition np_mean (l : list R) : R := np_sum l / INR (List.length l).

Definition np_std (l : list R) : R :=
  let m := np_mean l in
  sqrt (np_mean (map (fun x => (x - m) * (x - m)) l)).

(** [np.clip(x, a_min, a_max)]. *)
Definition np_clip (x a_min a_max : R) : R := Rmin (Rmax x a_min) a_max.

(** [_calculate_confidence(signals)]. *)
Definition _calculate_confidence (signals : dict) : R :=
  let scores := values signals in
  let agreement := 1 - np_std scores in
  np_clip agreement 0.3 0.95.

(** Python's [x > y] on floats. *)
Definition Rgtb (x y : R) : bool := if Rlt_dec y x then true else false.

(** [_generate_explanation(signals, final_score)]. *)
Definition _generate_explanation (signals : dict) (score : R) : option string :=
  if Rgtb score 0.7 then
    match getitem signals "spectral_inconsistency",
          getitem signals "pitch_abnormality",
          getitem signals "high_freq_artifacts" with
    | Some spectral, Some pitch, Some high_freq =>
        let reasons :=
          ((if Rgtb spectral 0.6 then ["unnatural spectral patterns"%string] else [])
           ++ (if Rgtb pitch 0.6 then ["robotic pitch contours"%string] else [])
           ++ (if Rgtb high_freq 0.6 then ["weak high-frequency content"%string] else []))%list
        in
        Some ("LIKELY DEEPFAKE" ++ ": Detected "
              ++ String.concat ", " reasons ++ ".")%string
    | _, _, _ => None
    end
  else if Rgtb score 0.4 then
    Some "UNCERTAIN: Some suspicious artifacts detected, but inconclusive."%string
  else
    Some "LIKELY AUTHENTIC: Audio shows natural speech characteristics."%string.

(** The dictionary returned by [analyze_audio]. *)
Record AudioResult : Type := mkAudioResult {
  score : R;
  confidence : R;
  signals_of : dict;
  explanation : string
}.

(** [analyze_audio] from the point where [signals] is built: the
    weighted score, the explanation and the returned dictionary. *)
Definition fuse (signals : dict) : option AudioResult :=
  match final_score signals with
  | None => None
  | Some sc =>
      match _generate_explanation signals sc with
      | None => None
      | Some text =>
          Some {| score := sc;
                  confidence := _calculate_confidence signals;
                  signals_of := signals;
                  explanation := text |}
      end
  end.

End Audio.

(** ** inference/audio_infer.py, with rounding *)

Module AudioRounded.
Import Audio.
Local Open Scope R_scope.

Section WithRounding.

(** The rounding of binary64: the number stored for an exact result, and
    for a literal of the source. *)
Variable rnd : R -> R.

(** [sum(signals[k] * weights[k] for k in weights)], each product and each
    partial sum rounded. *)
Fixpoint weighted_sum (signals w : dict) (ks : list string) (acc : R)
    : option R :=
  match ks with
  | [] => Some acc
  | k :: ks' =>
      match getitem signals k, getitem w k with
      | Some s, Some wk =>
          weighted_sum signals w ks' (rnd (acc + rnd (s * rnd wk)))
      | _, _ => None
      end
  end.

Definition final_score (signals : dict) : option R :=
  weighted_sum signals weights (map fst weights) 0.

(** [analyze_audio] from the point where [signals] is built, with the
    rounded score. *)
Definition fuse (signals : dict) : option AudioResult :=
  match final_score signals with
  | None => None
  | Some sc =>
      match _generate_explanation signals sc with
      | None => None
      | Some text =>
          Some {| score := sc;
                  confidence := _calculate_confidence signals;
                  signals_of := signals;
                  explanation := text |}
      end
  end.

End WithRounding.

(** [rnd] stays within [eps] of the exact number on [-2, 2]; binary64
    rounding does with [eps = 2 ** -53]. *)
Definition rounds_within (rnd : R -> R) (eps : R) : Prop :=
  forall y : R, -2 <= y <= 2 -> Rabs (rnd y - y) <= eps.

End AudioRounded.

(** ** The weighted sum of inference/audio_infer.py on binary64 numbers *)

Module AudioBinary64.
Import PrimFloat.
#[local] Set Warnings "-inexact-float".

Definition dict : Type := list (string * float).

Fixpoint getitem (d : dict) (k : string) : option float :=
  match d with
  | [] => None
  | (k', v) :: d' => if String.eqb k k' then Some v else getitem d' k
  end.

Definition make_signals (spectral pitch energy high_freq temporal : float)
    : dict :=
  [("spectral_inconsistency", spectral);
   ("pitch_abnormality", pitch);
   ("energy_gaps", energy);
   ("high_freq_artifacts", high_freq);
   ("temporal_discontinuity", temporal)].

Definition weights : dict :=
  [("spectral_inconsistency", 0.25%float);
   ("pitch_abnormality", 0.20%float);
   ("energy_gaps", 0.15%float);
   ("high_freq_artifacts", 0.25%float);
   ("temporal_discontinuity", 0.15%float)].

(** [sum(signals[k] * weights[k] for k in weights)]: binary64 products,
    added from left to right, which is how [sum] adds floats up to
    CPython 3.11 (from 3.12 on it carries a compensation term as well). *)
Fixpoint weighted_sum (signals w : dict) (ks : list string) (acc : float)
    : option float :=
  match ks with
  | [] => Some acc
  | k :: ks' =>
      match getitem signals k, getitem w k with
      | Some s, Some wk =>
          weighted_sum signals w ks' (PrimFloat.add acc (PrimFloat.mul s wk))
      | _, _ => None
      end
  end.

Definition final_score (signals : dict) : option float :=
  weighted_sum signals weights (map fst weights) 0%float.

End AudioBinary64.

(** ** Verdict classification *)

Module Classifier.
Local Open Scope Q_scope.

(** Modelled from the spec: the verdict classifier (the decision agent that
    turns a confidence into an initial verdict and risk level) is not among
    the source files.  [confidence >= threshold_high] gives DEEPFAKE with
    risk HIGH; [confidence <= threshold_low] gives REAL with risk LOW;
    otherwise UNCERTAIN with risk MEDIUM. *)
Definition classify (confidence threshold_low threshold_high : Q)
    : string * string :=
  if Qle_bool threshold_high confidence then ("DEEPFAKE", "HIGH")%string
  else if Qle_bool confidence threshold_low then ("REAL", "LOW")%string
  else ("UNCERTAIN", "MEDIUM")%string.

End Classifier.

(** ** inference/audio_infer.py: the five checks *)

Module AudioChecks.
Import Audio.
Local Open Scope R_scope.

(** Python's [x < y] on floats. *)
Definition Rltb (x y : R) : bool := if Rlt_dec x y then true else false.

(** What librosa and NumPy measure on the waveform, taken as inputs: the
    mean squared spectral flux, the number of voiced frames with the
    standard deviation and peak-to-peak range of their pitch, the share of
    abrupt energy changes, the high/low mel energy ratio, and the number of
    large timbre jumps. *)
Record Features : Type := mkFeatures {
  spectral_flux : R;
  voiced_frames : nat;
  pitch_std : R;
  pitch_range : R;
  abruptness_ratio : R;
  ratio : R;
  large_jumps : Z
}.

(** [_check_spectral_consistency], from [spectral_flux] on. *)
Definition _check_spectral_consistency (spectral_flux : R) : R :=
  if Rltb spectral_flux 0.01 then 0.8
  else if Rgtb spectral_flux 0.5 then 0.7
  else 0.1.

(** [_check_pitch_naturalness], from [f0_voiced] on. *)
Definition _check_pitch_naturalness
    (voiced_frames : nat) (pitch_std pitch_range : R) : R :=
  if (voiced_frames <? 10)%nat then 0.5
  else if Rltb pitch_std 5 || Rltb pitch_range 20 then 0.75
  else if Rgtb pitch_std 80 then 0.65
  else 0.15.

(** [_check_energy_continuity], from [abruptness_ratio] on. *)
Definition _check_energy_continuity (abruptness_ratio : R) : R :=
  if Rgtb abruptness_ratio 0.3 then 0.7 else 0.2.

(** [_check_high_frequency_quality], from [ratio] on. *)
Definition _check_high_frequency_quality (ratio : R) : R :=
  if Rltb ratio (-20) then 0.8
  else if Rltb ratio (-15) then 0.5
  else 0.1.

(** [_check_temporal_consistency], from [large_jumps] on. *)
Definition _check_temporal_consistency (large_jumps : Z) : R :=
  if (5 <? large_jumps)%Z then 0.75
  else if (2 <? large_jumps)%Z then 0.4
  else 0.1.

(** The [signals] dictionary of [analyze_audio]. *)
Definition signals_of_features (f : Features) : dict :=
  make_signals
    (_check_spectral_consistency (spectral_flux f))
    (_check_pitch_naturalness (voiced_frames f) (pitch_std f) (pitch_range f))
    (_check_energy_continuity (abruptness_ratio f))
    (_check_high_frequency_quality (ratio f))
    (_check_temporal_consistency (large_jumps f)).

(** [analyze_audio], from the measured features on. *)
Definition analyze_audio (f : Features) : option AudioResult :=
  fuse (signals_of_features f).

(** [run_audio_inference]: the score of the analysis (the report it prints
    is not modelled). *)
Definition run_audio_inference (f : Features) : option R :=
  match analyze_audio f with
  | Some res => Some (score res)
  | None => None
  end.

End AudioChecks.

(** ** The five checks, with rounding *)

Module AudioChecksRounded.
Import Audio AudioChecks.
Local Open Scope R_scope.

(** The [signals] dictionary of [analyze_audio]: each check returns a
    literal of the source, stored rounded. *)
Definition signals_of_features (rnd : R -> R) (f : Features) : dict :=
  make_signals
    (rnd (_check_spectral_consistency (spectral_flux f)))
    (rnd (_check_pitch_naturalness (voiced_frames f) (pitch_std f)
            (pitch_range f)))
    (rnd (_check_energy_continuity (abruptness_ratio f)))
    (rnd (_check_high_frequency_quality (ratio f)))
    (rnd (_check_temporal_consistency (large_jumps f))).

(** [analyze_audio], from the measured features on. *)
Definition analyze_audio (rnd : R -> R) (f : Features) : option AudioResult :=
  AudioRounded.fuse rnd (signals_of_features rnd f).

(** [run_audio_inference]: the score of the analysis. *)
Definition run_audio_inference (rnd : R -> R) (f : Features) : option R :=
  match analyze_audio rnd f with
  | Some res => Some (score res)
  | None => None
  end.

End AudioChecksRounded.

(** ** agent/explanation_engine.py *)

Module Explanation.
Local Open Scope Q_scope.

(** Values stored in a decision dictionary: strings, and the list of
    flags. *)
Inductive pyval : Type :=
| PStr (s : string)
| PList (l : list string).

(** [v == "literal"] for a value of any type. *)
Definition eq_str (v : pyval) (s : string) : bool :=
  match v with
  | PStr t => String.eqb t s
  | PList _ => false
  end.

(** A decision dictionary, in insertion order. *)
Definition decision_dict : Type := list (string * pyval).

(** [d.get(k, default)]. *)
Fixpoint get (d : decision_dict) (k : string) (default : pyval) : pyval :=
  match d with
  | [] => default
  | (k', v) :: d' => if String.eqb k k' then v else get d' k default
  end.

(** The dictionary [apply_policy_rules] returns. *)
Definition to_dict (d : Policy.PolicyDecision) : decision_dict :=
  [("verdict", PStr (Policy.verdict d));
   ("risk_level", PStr (Policy.risk_level d));
   ("policy_applied", PList (Policy.policy_applied d));
   ("action_required", PStr (Policy.action_required d))].

Section WithFormat.

(** The two numbers an explanation prints, as the text they are printed
    as: [f"{percentage}"] with
    [percentage = round(float(confidence) * 100, 2)], and
    [f"{100 - percentage}"], both as functions of the confidence. *)
Variable show_percentage : Q -> string.
Variable show_remainder : Q -> string.

(** [generate_explanation(verdict, confidence, risk_level)]. *)
Definition generate_explanation
    (verdict : pyval) (confidence : Q) (risk_level : pyval) : string :=
  let base_msg :=
    if eq_str verdict "DEEPFAKE" then
      ("The system detected strong indicators of digital manipulation (Confidence: "
       ++ show_percentage confidence ++ "%).")%string
    else if eq_str verdict "REAL" then
      ("The analysis suggests the media is authentic (Confidence: "
       ++ show_remainder confidence ++ "% real).")%string
    else "The analysis resulted in an ambiguous verdict."%string in
  let risk_msg :=
    if eq_str risk_level "CRITICAL" then
      " This media shows high-probability synthesis and should be treated as high-risk content."%string
    else if eq_str risk_level "HIGH" then
      " Significant anomalies were found. Manual verification is strongly recommended."%string
    else if eq_str risk_level "MEDIUM" then
      " The system encountered conflicting patterns. Please review the detailed analysis."%string
    else " No significant anomalies detected."%string in
  (base_msg ++ risk_msg)%string.

(** [generate_explanation_from_decision(score, decision)]. *)
Definition generate_explanation_from_decision
    (score : Q) (decision : decision_dict) : string :=
  generate_explanation
    (get decision "verdict" (PStr "UNCERTAIN"))
    score
    (get decision "risk_level" (PStr "LOW")).

End WithFormat.

End Explanation.

(** ** preprocessing/video_loader.py and preprocessing/frame_sampler.py *)

Module Frames.
Local Open Scope Q_scope.

Section WithFrame.

(** A decoded frame (an image array); its content plays no role here. *)
Variable frame : Type.

(** [frame_generator()] of [load_video]: the frames the capture delivers,
    each with its index, counted from 0. *)
Fixpoint frame_generator_from (frame_index : Z) (frames : list frame)
    : list (Z * frame) :=
  match frames with
  | [] => []
  | f :: rest => (frame_index, f) :: frame_generator_from (frame_index + 1) rest
  end.

Definition frame_generator (frames : list frame) : list (Z * frame) :=
  frame_generator_from 0 frames.

(** The [video] dictionary, with the two keys [sample_frames] reads. *)
Record video : Type := mkVideo {
  fps : pyfloat;
  frames : list (Z * frame)
}.

(** [fps <= 0]: false for nan. *)
Definition le_zero (x : pyfloat) : bool :=
  match x with
  | Finite q => Qle_bool q 0
  | NegInf => true
  | PosInf | NaN => false
  end.

(** [x // n] for a float [x] and an integer [n]: the floor of the exact
    quotient, which is what Python computes as long as [n] converts to a
    float exactly (up to [2 ** 53] in absolute value) and [x] stays below
    [2 ** 51]. *)
Definition floordiv (x : pyfloat) (n : Z) : Policy.outcome pyfloat :=
  if (n =? 0)%Z then Policy.Raised "ZeroDivisionError"
  else
    match x with
    | Finite q => Policy.Returned (Finite (inject_Z (Qfloor (q / inject_Z n))))
    | PosInf | NegInf | NaN => Policy.Returned NaN
    end.

(** [int(x)]. *)
Definition int (x : pyfloat) : Policy.outcome Z :=
  match x with
  | Finite q =>
      Policy.Returned (if Qle_bool 0 q then Qfloor q else Qceiling q)
  | PosInf | NegInf => Policy.Raised "OverflowError"
  | NaN => Policy.Raised "ValueError"
  end.

(** [max(int(fps // FRAME_SAMPLE_RATE), 1)]. *)
Definition sample_interval (FRAME_SAMPLE_RATE : Z) (fps : pyfloat)
    : Policy.outcome Z :=
  match floordiv fps FRAME_SAMPLE_RATE with
  | Policy.Raised kind => Policy.Raised kind
  | Policy.Returned d =>
      match int d with
      | Policy.Raised kind => Policy.Raised kind
      | Policy.Returned i => Policy.Returned (Z.max i 1)
      end
  end.

(** The [for] loop of [sample_frames], with its two accumulators; the
    [break] ends it. *)
Fixpoint sample_loop (sample_interval MAX_FRAMES : Z)
    (frame_stream : list (Z * frame))
    (sampled_frames : list frame) (sampled_count : Z) : list frame :=
  match frame_stream with
  | [] => sampled_frames
  | (frame_index, f) :: rest =>
      let hit := (frame_index mod sample_interval =? 0)%Z in
      let sampled_frames' :=
        if hit then (sampled_frames ++ [f])%list else sampled_frames in
      let sampled_count' :=
        if hit then (sampled_count + 1)%Z else sampled_count in
      if (MAX_FRAMES <=? sampled_count')%Z then sampled_frames'
      else sample_loop sample_interval MAX_FRAMES rest
             sampled_frames' sampled_count'
  end.

(** [sample_frames(video)]; [settings.FRAME_SAMPLE_RATE] and
    [settings.MAX_FRAMES] are the first two arguments.  The [log_event]
    call is not modelled. *)
Definition sample_frames (FRAME_SAMPLE_RATE MAX_FRAMES : Z) (v : video)
    : Policy.outcome (list frame) :=
  if le_zero (fps v) then Policy.Raised "ValueError"
  else
    match sample_interval FRAME_SAMPLE_RATE (fps v) with
    | Policy.Raised kind => Policy.Raised kind
    | Policy.Returned k =>
        Policy.Returned (sample_loop k MAX_FRAMES (frames v) [] 0)
    end.

End WithFrame.

(** [FRAME_SAMPLE_RATE] and [MAX_FRAMES] of the shipped [Settings]. *)
Definition FRAME_SAMPLE_RATE : Z := 10.
Definition MAX_FRAMES : Z := 150.

End Frames.

(** * Properties *)

(** ** Rational comparisons *)

Lemma Qltb_lt (x y : Q) : Qltb x y = true <-> (x < y)%Q.
Proof.
  unfold Qltb. rewrite negb_true_iff. split.
  - intro H. apply Qnot_le_lt. intro L.
    apply Qle_bool_iff in L. congruence.
  - intro H. destruct (Qle_bool y x) eqn:E; trivial.
    apply Qle_bool_iff in E. exfalso. exact (Qlt_not_le _ _ H E).
Qed.

Lemma Qltb_ge (x y : Q) : Qltb x y = false <-> (y <= x)%Q.
Proof.
  unfold Qltb. rewrite negb_false_iff. apply Qle_bool_iff.
Qed.

Lemma Qle_bool_gt (x y : Q) : Qle_bool x y = false <-> (y < x)%Q.
Proof.
  rewrite <- Qltb_lt. unfold Qltb. now rewrite negb_true_iff.
Qed.

(** ** Risk levels *)

Lemma is_risk_cases (r : string) :
  is_risk r ->
  r = "LOW" \/ r = "MEDIUM" \/ r = "HIGH" \/ r = "CRITICAL".
Proof.
  unfold is_risk, risk_rank.
  destruct (String.eqb_spec r "LOW"); [auto |].
  destruct (String.eqb_spec r "MEDIUM"); [auto |].
  destruct (String.eqb_spec r "HIGH"); [auto |].
  destruct (String.eqb_spec r "CRITICAL"); [auto 6 |].
  intro H. now elim H.
Qed.

Lemma risk_le_critical (r : string) : is_risk r -> risk_le r "CRITICAL".
Proof.
  intro H. destruct (is_risk_cases r H) as [-> | [-> | [-> | ->]]];
    unfold risk_le; simpl; lia.
Qed.

Lemma risk_le_refl (r : string) : is_risk r -> risk_le r r.
Proof.
  intro H. destruct (is_risk_cases r H) as [-> | [-> | [-> | ->]]];
    unfold risk_le; simpl; lia.
Qed.

Lemma risk_le_high (r : string) :
  is_risk r -> r <> "CRITICAL" -> risk_le r "HIGH".
Proof.
  intros H N. destruct (is_risk_cases r H) as [-> | [-> | [-> | ->]]];
    try (unfold risk_le; simpl; lia).
  now elim N.
Qed.

(** ** Policy engine *)

(** Case analysis on whether rule 3 fires, whatever state it is given. *)
Ltac case_rule3 :=
  match goal with
  | |- context [Policy.rule3_fires ?s ?w] =>
      destruct (Policy.rule3_fires s w) eqn:?
  end.

Section PolicyFacts.
Import Policy.

Lemma rule1_fires_iff (c : Q) : rule1_fires c = true <-> (0.98 < c)%Q.
Proof. apply Qltb_lt. Qed.

Lemma rule2_fires_iff (s : Settings) (c : Q) :
  rule2_fires s c = true <->
  (DEEPFAKE_THRESHOLD_LOW s < c)%Q /\ (c < DEEPFAKE_THRESHOLD_HIGH s)%Q.
Proof.
  unfold rule2_fires. rewrite andb_true_iff, !Qltb_lt. tauto.
Qed.

Lemma rule3_fires_iff (s : Settings) (w : Working) :
  rule3_fires s w = true <->
  RUNTIME_MODE s = "EDGE_OFFLINE" /\ final_verdict w = "UNCERTAIN".
Proof.
  unfold rule3_fires. rewrite andb_true_iff, !String.eqb_eq. tauto.
Qed.

(** Under the shipped thresholds the conditions of rules 1 and 2 exclude
    each other. *)
Lemma shipped_rules_disjoint (c : Q) :
  rule1_fires c = true -> rule2_fires settings c = false.
Proof.
  intro H1. destruct (rule2_fires settings c) eqn:H2; trivial.
  apply rule1_fires_iff in H1. apply rule2_fires_iff in H2.
  destruct H2 as [_ H2]. simpl in H2.
  exfalso. apply (Qlt_irrefl c).
  apply Qlt_trans with (0.75)%Q; [exact H2 |].
  apply Qlt_trans with (0.98)%Q; [reflexivity | exact H1].
Qed.

(** Each rule that fires appends one flag, and nothing else does. *)
Lemma flags_count (s : Settings) (v : string) (c : Q) (r : string) :
  List.length (policy_applied (apply_policy_rules s v c r))
  = (Nat.b2n (rule1_fires c) + Nat.b2n (rule2_fires s c)
     + Nat.b2n (rule3_fires s (rule2 s c (rule1 c (start v r)))))%nat.
Proof.
  unfold apply_policy_rules, rule3.
  case_rule3; unfold rule1, rule2;
    destruct (rule1_fires c), (rule2_fires s c); reflexivity.
Qed.

(** Under the shipped configuration a call that enters with LOW, MEDIUM or
    HIGH never returns a level below the one it entered with. *)
Lemma shipped_not_below_initial (v : string) (c : Q) (r : string) :
  is_risk r -> r <> "CRITICAL" ->
  risk_le r (risk_level (apply_policy_rules settings v c r)).
Proof.
  intros Hr Hn. pose proof (risk_le_high r Hr Hn) as Hh.
  unfold apply_policy_rules, rule1, rule2.
  destruct (rule1_fires c) eqn:F1.
  - rewrite (shipped_rules_disjoint c F1). unfold rule3.
    case_rule3; simpl; [exact Hh | now apply risk_le_critical].
  - destruct (rule2_fires settings c); unfold rule3.
    + simpl. exact Hh.
    + case_rule3; simpl; [exact Hh | now apply risk_le_refl].
Qed.

(** Rule 3 acting on a level that rule 1 has set: CRITICAL becomes HIGH. *)
Example rule3_after_rule1 :
  risk_trace settings "UNCERTAIN" 0.99 "MEDIUM"
  = ["MEDIUM"; "CRITICAL"; "CRITICAL"; "HIGH"].
Proof. reflexivity. Qed.

End PolicyFacts.

Section PolicyClaims.
Import Policy.

(** C1, as the spec words it, fails at a concrete call: with the shipped
    thresholds and runtime mode EDGE_ONLINE, the call
    [apply_policy_rules("DEEPFAKE", 0.5, "HIGH")] enters with HIGH, rule 2
    fires and assigns MEDIUM, and MEDIUM is what is returned: the level was
    lowered.  Under the shipped runtime mode EDGE_OFFLINE the same call
    also steps down from HIGH to MEDIUM at rule 2, before rule 3 assigns
    HIGH again. *)
Lemma C1_counterexample :
  let s := with_runtime_mode settings "EDGE_ONLINE" in
  is_risk "HIGH"
  /\ risk_trace s "DEEPFAKE" 0.5 "HIGH" = ["HIGH"; "HIGH"; "MEDIUM"; "MEDIUM"]
  /\ risk_level (apply_policy_rules s "DEEPFAKE" 0.5 "HIGH") = "MEDIUM"
  /\ risk_lt (risk_level (apply_policy_rules s "DEEPFAKE" 0.5 "HIGH")) "HIGH"
  /\ ~ nondecreasing (risk_trace s "DEEPFAKE" 0.5 "HIGH")
  /\ risk_trace settings "DEEPFAKE" 0.5 "HIGH"
     = ["HIGH"; "HIGH"; "MEDIUM"; "HIGH"]
  /\ ~ nondecreasing (risk_trace settings "DEEPFAKE" 0.5 "HIGH").
Proof.
  cbv zeta. split; [discriminate |].
  split; [reflexivity |]. split; [reflexivity |].
  split; [unfold risk_lt; simpl; lia |].
  split.
  { change (~ nondecreasing ["HIGH"; "HIGH"; "MEDIUM"; "MEDIUM"]).
    simpl. unfold risk_le. simpl. lia. }
  split; [reflexivity |].
  change (~ nondecreasing ["HIGH"; "HIGH"; "MEDIUM"; "HIGH"]).
  simpl. unfold risk_le. simpl. lia.
Qed.

(** C1 (amended): within one call, rule 1 never lowers the risk level;
    rule 2, when it fires, assigns MEDIUM whatever the level was and rule 3
    can then only raise it, and when it does not fire it leaves the level
    as it is; and whenever rule 2 does not fire and rule 3 does not fire on
    a CRITICAL level, the levels on entry and after rules 1, 2 and 3 never
    step down under LOW < MEDIUM < HIGH < CRITICAL.  Under the shipped
    configuration a call that enters with LOW, MEDIUM or HIGH returns a
    level that is not below the one it entered with. *)
Theorem C1_risk_steps (s : Settings) (v : string) (c : Q) (r : string)
    (Hr : is_risk r) :
  let w1 := rule1 c (start v r) in
  let w2 := rule2 s c w1 in
  let w3 := rule3 s w2 in
  risk_le r (final_risk_level w1)
  /\ (rule2_fires s c = true ->
      final_risk_level w2 = "MEDIUM"
      /\ risk_le "MEDIUM" (final_risk_level w3))
  /\ (rule2_fires s c = false ->
      final_risk_level w2 = final_risk_level w1)
  /\ (rule2_fires s c = false ->
      final_risk_level w2 <> "CRITICAL" \/ rule3_fires s w2 = false ->
      nondecreasing (risk_trace s v c r))
  /\ (r <> "CRITICAL" ->
      risk_le r (risk_level (apply_policy_rules settings v c r))).
Proof.
  cbv zeta.
  assert (H1 : risk_le r (final_risk_level (rule1 c (start v r)))).
  { unfold rule1. destruct (rule1_fires c); simpl.
    - now apply risk_le_critical.
    - now apply risk_le_refl. }
  assert (K1 : is_risk (final_risk_level (rule1 c (start v r)))).
  { unfold rule1. destruct (rule1_fires c); simpl; [discriminate | exact Hr]. }
  split; [exact H1 |]. split; [| split; [| split]].
  - intro F2. unfold rule2. rewrite F2. simpl. split; [reflexivity |].
    unfold rule3. destruct (rule3_fires _ _); simpl;
      unfold risk_le; simpl; lia.
  - intro F2. unfold rule2. now rewrite F2.
  - intros F2 H3. unfold risk_trace.
    assert (E2 : rule2 s c (rule1 c (start v r)) = rule1 c (start v r)).
    { unfold rule2. now rewrite F2. }
    rewrite E2 in *. simpl. split; [exact H1 |].
    split; [now apply risk_le_refl |]. split; [| exact I].
    unfold rule3. destruct (rule3_fires s _) eqn:F3; simpl.
    + destruct H3 as [H3 | H3]; [| discriminate].
      now apply risk_le_high.
    + now apply risk_le_refl.
  - now apply shipped_not_below_initial.
Qed.

Lemma C1_risk_steps_witness :
  is_risk "LOW"
  /\ nondecreasing (risk_trace settings "UNCERTAIN" 0.2 "LOW").
Proof.
  split; [discriminate |].
  apply (C1_risk_steps settings "UNCERTAIN" 0.2 "LOW"); [discriminate | reflexivity |].
  left. discriminate.
Defined.

(** C2: the call with verdict UNCERTAIN, confidence 0.5 and risk MEDIUM
    under the shipped configuration (runtime mode EDGE_OFFLINE, thresholds
    0.40 and 0.75) returns risk HIGH, action MANUAL_INSPECTION and the flags
    REQUIRES_HUMAN_REVIEW, OFFLINE_PRECAUTIONARY_ESCALATION in that order:
    rule 1 does not fire, rule 2 fires, then rule 3 fires; in every call
    each rule that fires adds exactly one flag. *)
Theorem C2_offline_uncertain :
  RUNTIME_MODE settings = "EDGE_OFFLINE"
  /\ apply_policy_rules settings "UNCERTAIN" 0.5 "MEDIUM"
     = {| verdict := "UNCERTAIN";
          risk_level := "HIGH";
          policy_applied :=
            ["REQUIRES_HUMAN_REVIEW"; "OFFLINE_PRECAUTIONARY_ESCALATION"];
          action_required := "MANUAL_INSPECTION" |}
  /\ rule1_fires 0.5 = false
  /\ policy_flags (rule2 settings 0.5 (rule1 0.5 (start "UNCERTAIN" "MEDIUM")))
     = ["REQUIRES_HUMAN_REVIEW"]
  /\ rule3_fires settings
       (rule2 settings 0.5 (rule1 0.5 (start "UNCERTAIN" "MEDIUM"))) = true
  /\ (forall (s : Settings) (v : string) (c : Q) (r : string),
        List.length (policy_applied (apply_policy_rules s v c r))
        = (Nat.b2n (rule1_fires c) + Nat.b2n (rule2_fires s c)
           + Nat.b2n (rule3_fires s (rule2 s c (rule1 c (start v r)))))%nat).
Proof.
  split; [reflexivity |]. split; [reflexivity |]. split; [reflexivity |].
  split; [reflexivity |]. split; [reflexivity |].
  exact flags_count.
Qed.

(** C5: whenever [confidence > 0.98], whatever the verdict, the risk level
    and the configuration, rule 1 sets the risk level to CRITICAL and
    appends EXTREME_CONFIDENCE_LOCK, which is then the first flag of the
    returned list; and the call with DEEPFAKE, 0.99, HIGH in runtime mode
    EDGE_ONLINE returns risk CRITICAL with that flag. *)
Theorem C5_extreme_confidence_lock (s : Settings) (v : string) (c : Q)
    (r : string) (Hc : (0.98 < c)%Q) :
  final_risk_level (rule1 c (start v r)) = "CRITICAL"
  /\ policy_flags (rule1 c (start v r)) = ["EXTREME_CONFIDENCE_LOCK"]
  /\ hd_error (policy_applied (apply_policy_rules s v c r))
     = Some "EXTREME_CONFIDENCE_LOCK"
  /\ In "EXTREME_CONFIDENCE_LOCK" (policy_applied (apply_policy_rules s v c r))
  /\ (let d := apply_policy_rules (with_runtime_mode settings "EDGE_ONLINE")
                 "DEEPFAKE" 0.99 "HIGH" in
      risk_level d = "CRITICAL"
      /\ policy_applied d = ["EXTREME_CONFIDENCE_LOCK"]).
Proof.
  apply rule1_fires_iff in Hc.
  assert (E : rule1 c (start v r)
              = {| final_verdict := v; final_risk_level := "CRITICAL";
                   policy_flags := ["EXTREME_CONFIDENCE_LOCK"] |}).
  { unfold rule1. now rewrite Hc. }
  assert (F : hd_error (policy_applied (apply_policy_rules s v c r))
              = Some "EXTREME_CONFIDENCE_LOCK").
  { unfold apply_policy_rules. rewrite E. unfold rule2, rule3.
    destruct (rule2_fires s c); simpl; case_rule3; reflexivity. }
  rewrite E. cbv zeta. simpl final_risk_level. simpl policy_flags.
  split; [reflexivity |]. split; [reflexivity |]. split; [exact F |].
  split; [| split; reflexivity].
  destruct (policy_applied (apply_policy_rules s v c r)) as [| f fs];
    [discriminate |].
  injection F as ->. now left.
Qed.

Lemma C5_extreme_confidence_lock_witness :
  (0.98 < 0.99)%Q
  /\ final_risk_level (rule1 0.99 (start "REAL" "LOW")) = "CRITICAL".
Proof.
  split; [reflexivity |].
  apply (C5_extreme_confidence_lock settings "REAL" 0.99 "LOW"). reflexivity.
Defined.

(** C10: under the shipped configuration (thresholds 0.40 and 0.75), for
    every verdict, confidence and risk level the returned flags never hold
    both EXTREME_CONFIDENCE_LOCK and REQUIRES_HUMAN_REVIEW, because rules 1
    and 2 cannot both fire; so no call lowers a CRITICAL set by rule 1 to
    MEDIUM. *)
Theorem C10_lock_and_review_exclusive (v : string) (c : Q) (r : string) :
  let d := apply_policy_rules settings v c r in
  ~ (In "EXTREME_CONFIDENCE_LOCK" (policy_applied d)
     /\ In "REQUIRES_HUMAN_REVIEW" (policy_applied d))
  /\ (rule1_fires c && rule2_fires settings c = false).
Proof.
  cbv zeta. unfold apply_policy_rules, rule1, rule2.
  destruct (rule1_fires c) eqn:F1.
  - rewrite (shipped_rules_disjoint c F1). split; [| reflexivity].
    unfold rule3. case_rule3; simpl; intros [_ H]; intuition discriminate.
  - split; [| reflexivity].
    destruct (rule2_fires settings c); unfold rule3; case_rule3; simpl;
      intros [H _]; intuition discriminate.
Qed.

End PolicyClaims.

Section ConfigurationClaims.
Import Policy.

(** C9, as the spec words it, fails at concrete configurations: with the
    thresholds inverted (low 0.75, high 0.40) the call
    [apply_policy_rules("DEEPFAKE", 0.5, "HIGH")] returns an ordinary
    decision and raises nothing; with a runtime mode that names no mode it
    returns the decision it returns under EDGE_ONLINE. *)
Lemma C9_counterexample :
  let s := with_thresholds settings 0.75 0.40 in
  let t := with_runtime_mode settings "NO_SUCH_MODE" in
  inverted_thresholds s
  /\ call_apply_policy_rules s "DEEPFAKE" 0.5 "HIGH"
     = Returned {| verdict := "DEEPFAKE"; risk_level := "HIGH";
                   policy_applied := [];
                   action_required := "MANUAL_INSPECTION" |}
  /\ (forall kind,
        call_apply_policy_rules s "DEEPFAKE" 0.5 "HIGH" <> Raised kind)
  /\ call_apply_policy_rules t "UNCERTAIN" 0.2 "MEDIUM"
     = Returned {| verdict := "UNCERTAIN"; risk_level := "MEDIUM";
                   policy_applied := [];
                   action_required := "NONE" |}
  /\ call_apply_policy_rules t "UNCERTAIN" 0.2 "MEDIUM"
     = call_apply_policy_rules (with_runtime_mode settings "EDGE_ONLINE")
         "UNCERTAIN" 0.2 "MEDIUM".
Proof.
  cbv zeta. split; [unfold inverted_thresholds; simpl; discriminate |].
  split; [reflexivity |]. split; [intros kind; discriminate |].
  split; reflexivity.
Qed.

(** C9 (amended): the policy stage validates nothing.  Under a
    configuration with inverted thresholds or with a runtime mode other than
    EDGE_OFFLINE a call still returns a decision and raises nothing; with
    [threshold_low >= threshold_high] rule 2 never fires (no
    REQUIRES_HUMAN_REVIEW flag), and every runtime mode other than the string
    EDGE_OFFLINE, known or not, gives the decision of EDGE_ONLINE (rule 3
    never fires). *)
Theorem C9_configuration_not_validated (s : Settings) (v : string) (c : Q)
    (r : string)
    (H : inverted_thresholds s \/ RUNTIME_MODE s <> "EDGE_OFFLINE") :
  call_apply_policy_rules s v c r = Returned (apply_policy_rules s v c r)
  /\ (forall kind, call_apply_policy_rules s v c r <> Raised kind)
  /\ (inverted_thresholds s ->
      rule2_fires s c = false
      /\ ~ In "REQUIRES_HUMAN_REVIEW"
             (policy_applied (apply_policy_rules s v c r)))
  /\ (RUNTIME_MODE s <> "EDGE_OFFLINE" ->
      ~ In "OFFLINE_PRECAUTIONARY_ESCALATION"
          (policy_applied (apply_policy_rules s v c r))
      /\ apply_policy_rules s v c r
         = apply_policy_rules (with_runtime_mode s "EDGE_ONLINE") v c r).
Proof.
  clear H.
  split; [reflexivity |]. split; [intros kind; discriminate |]. split.
  - intro Inv.
    assert (F2 : rule2_fires s c = false).
    { destruct (rule2_fires s c) eqn:F2; trivial.
      apply rule2_fires_iff in F2. destruct F2 as [L U].
      exfalso. apply (Qlt_irrefl c).
      apply Qlt_le_trans with (DEEPFAKE_THRESHOLD_HIGH s); [exact U |].
      apply Qle_trans with (DEEPFAKE_THRESHOLD_LOW s);
        [exact Inv | now apply Qlt_le_weak]. }
    split; [exact F2 |].
    unfold apply_policy_rules, rule2. rewrite F2.
    unfold rule1, rule3.
    destruct (rule1_fires c); case_rule3; simpl; intuition discriminate.
  - intro M.
    assert (F3 : forall w, rule3_fires s w = false).
    { intro w. unfold rule3_fires.
      destruct (String.eqb_spec (RUNTIME_MODE s) "EDGE_OFFLINE");
        [contradiction | reflexivity]. }
    unfold apply_policy_rules, rule3. rewrite !F3.
    split; [| reflexivity].
    unfold rule1, rule2.
    destruct (rule1_fires c); destruct (rule2_fires s c); simpl;
      intuition discriminate.
Qed.

Lemma C9_configuration_not_validated_witness :
  let s := with_thresholds settings 0.75 0.40 in
  (inverted_thresholds s \/ RUNTIME_MODE s <> "EDGE_OFFLINE")
  /\ forall kind, call_apply_policy_rules s "REAL" 0.5 "LOW" <> Raised kind.
Proof.
  cbv zeta.
  assert (I : inverted_thresholds (with_thresholds settings 0.75 0.40)).
  { unfold inverted_thresholds. simpl. discriminate. }
  split; [left; exact I |].
  apply (C9_configuration_not_validated
           (with_thresholds settings 0.75 0.40) "REAL" 0.5 "LOW").
  left. exact I.
Defined.

End ConfigurationClaims.

(** ** Verdict classifier *)

Section ClassifierClaims.
Import Classifier.
Local Open Scope Q_scope.

(** C4: for thresholds with [threshold_low < threshold_high] and every
    confidence, [classify] gives (DEEPFAKE, HIGH) when
    [confidence >= threshold_high], (REAL, LOW) when
    [confidence <= threshold_low], and (UNCERTAIN, MEDIUM) strictly between;
    a confidence equal to a threshold falls on the DEEPFAKE or REAL side. *)
Theorem C4_classify_contract (confidence threshold_low threshold_high : Q)
    (Hth : threshold_low < threshold_high) :
  (threshold_high <= confidence ->
     classify confidence threshold_low threshold_high
     = ("DEEPFAKE", "HIGH")%string)
  /\ (confidence <= threshold_low ->
     classify confidence threshold_low threshold_high
     = ("REAL", "LOW")%string)
  /\ (threshold_low < confidence -> confidence < threshold_high ->
     classify confidence threshold_low threshold_high
     = ("UNCERTAIN", "MEDIUM")%string)
  /\ classify threshold_high threshold_low threshold_high
     = ("DEEPFAKE", "HIGH")%string
  /\ classify threshold_low threshold_low threshold_high
     = ("REAL", "LOW")%string.
Proof.
  assert (A : forall c, threshold_high <= c ->
                classify c threshold_low threshold_high
                = ("DEEPFAKE", "HIGH")%string).
  { intros c Hc. unfold classify.
    apply Qle_bool_iff in Hc. now rewrite Hc. }
  assert (B : forall c, c <= threshold_low ->
                classify c threshold_low threshold_high
                = ("REAL", "LOW")%string).
  { intros c Hc. unfold classify.
    assert (G : Qle_bool threshold_high c = false).
    { apply Qle_bool_gt. now apply Qle_lt_trans with threshold_low. }
    rewrite G. apply Qle_bool_iff in Hc. now rewrite Hc. }
  split; [apply A |]. split; [apply B |]. split.
  - intros L U. unfold classify.
    apply Qle_bool_gt in L, U. now rewrite U, L.
  - split; [apply A | apply B]; apply Qle_refl.
Qed.

Lemma C4_classify_contract_witness :
  0.40 < 0.75
  /\ classify 0.9 0.40 0.75 = ("DEEPFAKE", "HIGH")%string
  /\ classify 0.2 0.40 0.75 = ("REAL", "LOW")%string
  /\ classify 0.5 0.40 0.75 = ("UNCERTAIN", "MEDIUM")%string.
Proof.
  assert (Hth : 0.40 < 0.75) by reflexivity.
  split; [exact Hth |]. split; [| split].
  - destruct (C4_classify_contract 0.9 0.40 0.75 Hth) as (A & _).
    apply A. discriminate.
  - destruct (C4_classify_contract 0.2 0.40 0.75 Hth) as (_ & B & _).
    apply B. discriminate.
  - destruct (C4_classify_contract 0.5 0.40 0.75 Hth) as (_ & _ & C & _).
    apply C; reflexivity.
Defined.

End ClassifierClaims.

(** ** Score aggregation *)

Section AggregationFacts.
Import Aggregation.
Local Open Scope Q_scope.

Lemma np_clip_unit (x : Q) : 0 <= np_clip x 0 1 /\ np_clip x 0 1 <= 1.
Proof.
  unfold np_clip. split.
  - apply Q.min_glb; [apply Q.le_max_r | discriminate].
  - apply Q.le_min_r.
Qed.

Lemma clipped_unit (l : list Q) : Forall in01 (clipped l).
Proof.
  unfold clipped. induction l as [| x l IH]; simpl; constructor; trivial.
  apply np_clip_unit.
Qed.

Lemma insert_Forall (P : Q -> Prop) (x : Q) (l : list Q) :
  P x -> Forall P l -> Forall P (insert x l).
Proof.
  intros Hx. induction 1 as [| y l Hy Hl IH]; simpl.
  - now repeat constructor.
  - destruct (Qle_bool x y); repeat constructor; trivial.
Qed.

Lemma np_sort_Forall (P : Q -> Prop) (l : list Q) :
  Forall P l -> Forall P (np_sort l).
Proof.
  induction 1 as [| x l Hx Hl IH]; simpl; [constructor |].
  now apply insert_Forall.
Qed.

Lemma nth_unit (l : list Q) (k : nat) : Forall in01 l -> in01 (nth k l 0).
Proof.
  intro H. revert k. induction H as [| x l Hx Hl IH]; intros [| k]; simpl;
    trivial; split; discriminate.
Qed.

Lemma select_Forall (P : Q -> Prop) (l : list Q) (lo hi : Q) :
  Forall P l -> Forall P (select l lo hi).
Proof.
  intro H. apply Forall_forall. intros x Hx.
  rewrite Forall_forall in H. apply H.
  unfold select in Hx. now apply filter_In in Hx.
Qed.

Lemma filtered_unit (l : list Q) : Forall in01 (filtered l).
Proof.
  unfold filtered.
  destruct (List.length _ =? 0)%nat.
  - apply clipped_unit.
  - apply select_Forall, clipped_unit.
Qed.

Lemma np_median_unit (l : list Q) : Forall in01 l -> in01 (np_median l).
Proof.
  intro H. unfold np_median.
  pose proof (np_sort_Forall in01 l H) as S.
  destruct (Nat.even (List.length l)).
  - destruct (nth_unit _ (List.length l / 2 - 1) S) as [A1 A2].
    destruct (nth_unit _ (List.length l / 2) S) as [B1 B2].
    set (a := nth (List.length l / 2 - 1) (np_sort l) 0) in *.
    set (b := nth (List.length l / 2) (np_sort l) 0) in *.
    split.
    + apply Qle_shift_div_l; [reflexivity |].
      setoid_replace (0 * 2) with (0 + 0) by reflexivity.
      now apply Qplus_le_compat.
    + apply Qle_shift_div_r; [reflexivity |].
      setoid_replace (1 * 2) with (1 + 1) by reflexivity.
      now apply Qplus_le_compat.
  - now apply nth_unit.
Qed.

Lemma eqlist_refl (l : list Q) : eqlist l l.
Proof. induction l; constructor; trivial. reflexivity. Qed.

Lemma eqlist_trans (l1 l2 l3 : list Q) :
  eqlist l1 l2 -> eqlist l2 l3 -> eqlist l1 l3.
Proof.
  intro H. revert l3. induction H as [| x y l l' Hxy Hl IH]; intros l3 H3;
    inversion H3; subst; constructor.
  - now transitivity y.
  - now apply IH.
Qed.

Lemma insert_eqlist (a : Q) (l l' : list Q) :
  eqlist l l' -> eqlist (insert a l) (insert a l').
Proof.
  induction 1 as [| x y l l' Hxy Hl IH]; simpl.
  - apply eqlist_refl.
  - rewrite <- Hxy.
    destruct (Qle_bool a x).
    + constructor; [reflexivity |]. now constructor.
    + now constructor.
Qed.

Lemma insert_insert (a b : Q) (l : list Q) :
  eqlist (insert a (insert b l)) (insert b (insert a l)).
Proof.
  assert (Two : forall t, eqlist (insert a (b :: t)) (insert b (a :: t))
                          \/ (Qle_bool a b = false /\ Qle_bool b a = true)
                          \/ (Qle_bool a b = true /\ Qle_bool b a = false)).
  { intro t. cbn [insert].
    destruct (Qle_bool a b) eqn:Hab, (Qle_bool b a) eqn:Hba; auto.
    - left. apply Qle_bool_iff in Hab, Hba.
      assert (E : a == b) by now apply Qle_antisym.
      constructor; [exact E |]. constructor; [now symmetry |].
      apply eqlist_refl.
    - exfalso. apply Qle_bool_gt in Hab, Hba.
      apply (Qlt_irrefl a). now apply Qlt_trans with b. }
  induction l as [| x l IH].
  - destruct (Two []) as [H | [[Hab Hba] | [Hab Hba]]]; [exact H | |];
      cbn [insert]; rewrite Hab, Hba; apply eqlist_refl.
  - cbn [insert].
    destruct (Qle_bool b x) eqn:Hbx, (Qle_bool a x) eqn:Hax.
    + destruct (Two (x :: l)) as [H | [[Hab Hba] | [Hab Hba]]]; [exact H | |];
        cbn [insert]; rewrite Hab, Hba, ?Hax, ?Hbx; apply eqlist_refl.
    + assert (Hab : Qle_bool a b = false).
      { apply Qle_bool_gt. apply Qle_bool_iff in Hbx. apply Qle_bool_gt in Hax.
        now apply Qle_lt_trans with x. }
      cbn [insert]. rewrite Hab, Hax, Hbx. apply eqlist_refl.
    + assert (Hba : Qle_bool b a = false).
      { apply Qle_bool_gt. apply Qle_bool_iff in Hax. apply Qle_bool_gt in Hbx.
        now apply Qle_lt_trans with x. }
      cbn [insert]. rewrite Hba, Hax, Hbx. apply eqlist_refl.
    + cbn [insert]. rewrite Hax, Hbx.
      constructor; [reflexivity | exact IH].
Qed.

Lemma np_sort_Permutation (l l' : list Q) :
  Permutation l l' -> eqlist (np_sort l) (np_sort l').
Proof.
  induction 1 as [| x l l' Hp IH | x y l | l1 l2 l3 H12 IH12 H23 IH23]; simpl.
  - constructor.
  - now apply insert_eqlist.
  - apply insert_insert.
  - now apply eqlist_trans with (np_sort l2).
Qed.

Lemma nth_eqlist (l l' : list Q) (k : nat) :
  eqlist l l' -> nth k l 0 == nth k l' 0.
Proof.
  intro H. revert k. induction H as [| x y l l' Hxy Hl IH]; intros [| k];
    simpl; trivial; reflexivity.
Qed.

Lemma np_percentile_Permutation (a a' : list Q) (q : Q) :
  Permutation a a' -> np_percentile a q == np_percentile a' q.
Proof.
  intro H. unfold np_percentile.
  rewrite <- (Permutation_length H).
  pose proof (np_sort_Permutation _ _ H) as S.
  now rewrite !(nth_eqlist _ _ _ S).
Qed.

Lemma np_median_Permutation (a a' : list Q) :
  Permutation a a' -> np_median a == np_median a'.
Proof.
  intro H. unfold np_median.
  rewrite <- (Permutation_length H).
  pose proof (np_sort_Permutation _ _ H) as S.
  destruct (Nat.even (List.length a)).
  - now rewrite !(nth_eqlist _ _ _ S).
  - apply (nth_eqlist _ _ _ S).
Qed.

Lemma select_bounds (l : list Q) (lo lo' hi hi' : Q) :
  lo == lo' -> hi == hi' -> select l lo hi = select l lo' hi'.
Proof.
  intros Hlo Hhi. unfold select. apply filter_ext. intro x.
  now rewrite Hlo, Hhi.
Qed.

Lemma select_Permutation (l l' : list Q) (lo hi : Q) :
  Permutation l l' -> Permutation (select l lo hi) (select l' lo hi).
Proof.
  unfold select.
  induction 1 as [| x l l' Hp IH | x y l | l1 l2 l3 H12 IH12 H23 IH23]; simpl.
  - constructor.
  - destruct (_ && _); [now constructor | exact IH].
  - destruct (Qle_bool lo x && Qle_bool x hi), (Qle_bool lo y && Qle_bool y hi);
      try apply Permutation_refl.
    apply perm_swap.
  - exact (Permutation_trans IH12 IH23).
Qed.

Lemma filtered_Permutation (l l' : list Q) :
  Permutation l l' -> Permutation (filtered l) (filtered l').
Proof.
  intro H. unfold filtered.
  assert (C : Permutation (clipped l) (clipped l'))
    by now apply Permutation_map.
  rewrite (select_bounds (clipped l') _ (np_percentile (clipped l) 5)
             _ (np_percentile (clipped l) 95)).
  2, 3: symmetry; now apply np_percentile_Permutation.
  pose proof (select_Permutation _ _ (np_percentile (clipped l) 5)
                (np_percentile (clipped l) 95) C) as S.
  rewrite <- (Permutation_length S).
  now destruct (List.length _ =? 0)%nat.
Qed.

End AggregationFacts.

Section AggregationClaims.
Import Aggregation.
Local Open Scope Q_scope.

(** In exact arithmetic the aggregate lies in [0,1]. *)
Lemma aggregate_unit_interval (predictions : list Q) :
  0 <= aggregate_predictions predictions
  /\ aggregate_predictions predictions <= 1.
Proof.
  destruct predictions as [| x l]; simpl.
  - split; discriminate.
  - apply np_median_unit, filtered_unit.
Qed.

(** C8: the aggregate does not depend on the order of the scores: two
    sequences that are permutations of each other have the same
    aggregate. *)
Theorem C8_aggregate_permutation (predictions predictions' : list Q)
    (Hperm : Permutation predictions predictions') :
  aggregate_predictions predictions == aggregate_predictions predictions'.
Proof.
  destruct predictions as [| x l].
  - apply Permutation_nil in Hperm. subst. reflexivity.
  - destruct predictions' as [| y l'].
    + apply Permutation_sym, Permutation_nil in Hperm. discriminate.
    + unfold aggregate_predictions.
      now apply np_median_Permutation, filtered_Permutation.
Qed.

Lemma C8_aggregate_permutation_witness :
  Permutation [0.9; 0.1; 0.5] [0.5; 0.9; 0.1]
  /\ aggregate_predictions [0.9; 0.1; 0.5]
     == aggregate_predictions [0.5; 0.9; 0.1].
Proof.
  assert (P : Permutation [0.9; 0.1; 0.5] [0.5; 0.9; 0.1]).
  { apply Permutation_trans with [0.9; 0.5; 0.1].
    - apply perm_skip, perm_swap.
    - apply perm_swap. }
  split; [exact P |].
  exact (C8_aggregate_permutation _ _ P).
Defined.

End AggregationClaims.

(** ** Audio signal fusion *)

Section AudioFacts.
Import Audio.
Local Open Scope R_scope.

Lemma final_score_make_signals (a b c d e : R) :
  final_score (make_signals a b c d e)
  = Some (0 + a * 0.25 + b * 0.20 + c * 0.15 + d * 0.25 + e * 0.15).
Proof. reflexivity. Qed.

Lemma generate_explanation_make_signals (a b c d e sc : R) :
  exists text, _generate_explanation (make_signals a b c d e) sc = Some text.
Proof.
  unfold _generate_explanation.
  destruct (Rgtb sc 0.7); [| destruct (Rgtb sc 0.4)]; eexists; reflexivity.
Qed.



End AudioFacts.

(** * Further properties of the code *)

(** ** Policy engine *)

Section PolicyExtras.
Import Policy.

(** X1: the returned flags never repeat and keep one fixed order:
    EXTREME_CONFIDENCE_LOCK, then REQUIRES_HUMAN_REVIEW, then
    OFFLINE_PRECAUTIONARY_ESCALATION, each present or absent. *)
Theorem X1_flags_fixed_order (s : Settings) (v : string) (c : Q) (r : string) :
  let flags := policy_applied (apply_policy_rules s v c r) in
  NoDup flags
  /\ exists b1 b2 b3 : bool,
       flags = ((if b1 then ["EXTREME_CONFIDENCE_LOCK"] else [])
                ++ (if b2 then ["REQUIRES_HUMAN_REVIEW"] else [])
                ++ (if b3 then ["OFFLINE_PRECAUTIONARY_ESCALATION"] else []))%list.
Proof.
  cbv zeta. unfold apply_policy_rules, rule3. case_rule3;
    unfold rule1, rule2; destruct (rule1_fires c) eqn:F1,
      (rule2_fires s c) eqn:F2; simpl;
    (split;
     [ repeat (constructor; [simpl; intuition discriminate |]); constructor
     | exists (rule1_fires c), (rule2_fires s c);
       first [ exists true; rewrite F1, F2; reflexivity
             | exists false; rewrite F1, F2; reflexivity ] ]).
Qed.

(** X2: applying the rules again to the verdict and risk level they
    returned, with the same confidence and configuration, returns the same
    decision. *)
Theorem X2_policy_idempotent (s : Settings) (v : string) (c : Q) (r : string) :
  let d := apply_policy_rules s v c r in
  apply_policy_rules s (verdict d) c (risk_level d) = d.
Proof.
  cbv zeta. unfold apply_policy_rules, rule1, rule2, rule3, rule3_fires, start.
  destruct (rule1_fires c), (rule2_fires s c); simpl;
    destruct (String.eqb (RUNTIME_MODE s) "EDGE_OFFLINE"); simpl;
    try reflexivity;
    destruct (String.eqb v "UNCERTAIN") eqn:E; simpl; rewrite ?E; simpl;
    reflexivity.
Qed.

(** X3: in runtime mode EDGE_OFFLINE every decision whose verdict is
    UNCERTAIN has risk level HIGH, asks for MANUAL_INSPECTION and ends its
    flags with OFFLINE_PRECAUTIONARY_ESCALATION, whatever the configured
    thresholds and the inputs. *)
Theorem X3_offline_uncertain_is_high (s : Settings) (v : string) (c : Q)
    (r : string)
    (Hmode : RUNTIME_MODE s = "EDGE_OFFLINE")
    (Hv : verdict (apply_policy_rules s v c r) = "UNCERTAIN") :
  risk_level (apply_policy_rules s v c r) = "HIGH"
  /\ action_required (apply_policy_rules s v c r) = "MANUAL_INSPECTION"
  /\ exists before : list string,
       policy_applied (apply_policy_rules s v c r)
       = (before ++ ["OFFLINE_PRECAUTIONARY_ESCALATION"])%list.
Proof.
  revert Hv. unfold apply_policy_rules.
  set (w2 := rule2 s c (rule1 c (start v r))).
  assert (V3 : final_verdict (rule3 s w2) = final_verdict w2).
  { unfold rule3. now destruct (rule3_fires s w2). }
  unfold finish at 1. cbn [verdict]. rewrite V3. intro Hv.
  assert (F3 : rule3_fires s w2 = true).
  { apply rule3_fires_iff. now split. }
  unfold rule3. rewrite F3. simpl.
  split; [reflexivity |]. split; [reflexivity |].
  now exists (policy_flags w2).
Qed.

Lemma X3_offline_uncertain_is_high_witness :
  RUNTIME_MODE settings = "EDGE_OFFLINE"
  /\ verdict (apply_policy_rules settings "REAL" 0.6 "LOW") = "UNCERTAIN"
  /\ risk_level (apply_policy_rules settings "REAL" 0.6 "LOW") = "HIGH".
Proof.
  split; [reflexivity |]. split; [reflexivity |].
  apply (X3_offline_uncertain_is_high settings "REAL" 0.6 "LOW");
    reflexivity.
Defined.

(** X4: a decision that carries no flag is the input handed back: the
    verdict and the risk level are the ones passed in. *)
Theorem X4_no_flag_no_change (s : Settings) (v : string) (c : Q) (r : string)
    (Hnone : policy_applied (apply_policy_rules s v c r) = []) :
  verdict (apply_policy_rules s v c r) = v
  /\ risk_level (apply_policy_rules s v c r) = r.
Proof.
  revert Hnone. unfold apply_policy_rules, rule3. case_rule3;
    unfold rule1, rule2; destruct (rule1_fires c), (rule2_fires s c); simpl;
    intro H; try discriminate H; split; reflexivity.
Qed.

Lemma X4_no_flag_no_change_witness :
  policy_applied (apply_policy_rules settings "REAL" 0.1 "LOW") = []
  /\ verdict (apply_policy_rules settings "REAL" 0.1 "LOW") = "REAL".
Proof.
  split; [reflexivity |].
  apply (X4_no_flag_no_change settings "REAL" 0.1 "LOW"). reflexivity.
Defined.

(** X5: under the shipped configuration every decision that carries a flag
    asks for MANUAL_INSPECTION and has risk level HIGH or CRITICAL. *)
Theorem X5_shipped_flag_means_inspection (v : string) (c : Q) (r : string)
    (Hflag : policy_applied (apply_policy_rules settings v c r) <> []) :
  action_required (apply_policy_rules settings v c r) = "MANUAL_INSPECTION"
  /\ (risk_level (apply_policy_rules settings v c r) = "HIGH"
      \/ risk_level (apply_policy_rules settings v c r) = "CRITICAL").
Proof.
  revert Hflag. unfold apply_policy_rules, rule1, rule2.
  destruct (rule1_fires c) eqn:F1.
  - rewrite (shipped_rules_disjoint c F1). unfold rule3.
    case_rule3; simpl; auto.
  - destruct (rule2_fires settings c); unfold rule3.
    + simpl. auto.
    + case_rule3; simpl; auto. intro H. now elim H.
Qed.

Lemma X5_shipped_flag_means_inspection_witness :
  policy_applied (apply_policy_rules settings "DEEPFAKE" 0.99 "HIGH") <> []
  /\ action_required (apply_policy_rules settings "DEEPFAKE" 0.99 "HIGH")
     = "MANUAL_INSPECTION".
Proof.
  assert (H : policy_applied (apply_policy_rules settings "DEEPFAKE" 0.99 "HIGH")
              <> []) by discriminate.
  split; [exact H |].
  apply (X5_shipped_flag_means_inspection "DEEPFAKE" 0.99 "HIGH" H).
Defined.

(** X6: the rules never produce DEEPFAKE or REAL themselves: the returned
    verdict is the one passed in or UNCERTAIN, and it is UNCERTAIN exactly
    when the one passed in was, or the confidence lies strictly between the
    two thresholds. *)
Theorem X6_verdict_only_to_uncertain (s : Settings) (v : string) (c : Q)
    (r : string) :
  let d := apply_policy_rules s v c r in
  (verdict d = v \/ verdict d = "UNCERTAIN")
  /\ (verdict d = "UNCERTAIN" <->
      v = "UNCERTAIN"
      \/ ((DEEPFAKE_THRESHOLD_LOW s < c)%Q /\ (c < DEEPFAKE_THRESHOLD_HIGH s)%Q)).
Proof.
  cbv zeta. rewrite <- rule2_fires_iff.
  unfold apply_policy_rules, rule3. case_rule3;
    unfold rule1, rule2; destruct (rule1_fires c), (rule2_fires s c); simpl;
    (split; [auto |]); intuition discriminate.
Qed.

(** X7: under the shipped configuration an UNCERTAIN verdict with a
    confidence above 0.98 is returned with risk level HIGH, not CRITICAL,
    although the flags record the EXTREME_CONFIDENCE_LOCK: rule 3 assigns
    HIGH after rule 1 assigned CRITICAL. *)
Theorem X7_lock_flag_with_high (c : Q) (r : string) (Hc : (0.98 < c)%Q) :
  apply_policy_rules settings "UNCERTAIN" c r
  = {| verdict := "UNCERTAIN";
       risk_level := "HIGH";
       policy_applied :=
         ["EXTREME_CONFIDENCE_LOCK"; "OFFLINE_PRECAUTIONARY_ESCALATION"];
       action_required := "MANUAL_INSPECTION" |}.
Proof.
  apply rule1_fires_iff in Hc.
  unfold apply_policy_rules, rule1, rule2.
  rewrite Hc, (shipped_rules_disjoint c Hc). reflexivity.
Qed.

Lemma X7_lock_flag_with_high_witness :
  (0.98 < 0.99)%Q
  /\ risk_level (apply_policy_rules settings "UNCERTAIN" 0.99 "LOW") = "HIGH".
Proof.
  split; [reflexivity |].
  now rewrite (X7_lock_flag_with_high 0.99 "LOW" eq_refl).
Defined.

End PolicyExtras.

(** ** Score aggregation *)

Section AggregationOrder.
Import Aggregation.
Local Open Scope Q_scope.

Lemma insert_length (x : Q) (l : list Q) :
  List.length (insert x l) = S (List.length l).
Proof.
  induction l as [| y l IH]; simpl; trivial.
  destruct (Qle_bool x y); simpl; congruence.
Qed.

Lemma np_sort_length (l : list Q) : List.length (np_sort l) = List.length l.
Proof.
  induction l as [| x l IH]; simpl; trivial.
  now rewrite insert_length, IH.
Qed.

Lemma insert_In (x y : Q) (l : list Q) :
  In y (insert x l) <-> y = x \/ In y l.
Proof.
  induction l as [| z l IH]; simpl.
  - intuition.
  - destruct (Qle_bool x z); simpl; rewrite ?IH; intuition.
Qed.

Lemma np_sort_In (y : Q) (l : list Q) : In y (np_sort l) <-> In y l.
Proof.
  induction l as [| x l IH]; simpl; [tauto |].
  rewrite insert_In, IH. intuition.
Qed.

Lemma insert_sorted (x : Q) (l : list Q) :
  StronglySorted Qle l -> StronglySorted Qle (insert x l).
Proof.
  induction 1 as [| y l Hs IH Hy]; simpl.
  - repeat constructor.
  - destruct (Qle_bool x y) eqn:E.
    + apply Qle_bool_iff in E. constructor; [now constructor |].
      constructor; [exact E |].
      apply Forall_forall. intros z Hz. rewrite Forall_forall in Hy.
      apply Qle_trans with y; auto.
    + apply Qle_bool_gt in E. constructor; [exact IH |].
      apply Forall_forall. intros z Hz. apply insert_In in Hz.
      destruct Hz as [-> | Hz]; [now apply Qlt_le_weak |].
      rewrite Forall_forall in Hy. auto.
Qed.

Lemma np_sort_sorted (l : list Q) : StronglySorted Qle (np_sort l).
Proof.
  induction l as [| x l IH]; simpl; [constructor | now apply insert_sorted].
Qed.

Lemma sorted_nth (s : list Q) (i j : nat) :
  StronglySorted Qle s -> (i <= j)%nat -> (j < List.length s)%nat ->
  nth i s 0 <= nth j s 0.
Proof.
  intro H. revert i j. induction H as [| x s Hs IH Hx]; intros i j Hij Hj.
  - simpl in Hj. lia.
  - destruct i as [| i], j as [| j]; simpl in *.
    + apply Qle_refl.
    + rewrite Forall_forall in Hx. apply Hx, nth_In. lia.
    + lia.
    + apply IH; lia.
Qed.

(** A value already in [0,1] is its own clipped value. *)
Lemma np_clip_fixed (x : Q) : 0 <= x -> x <= 1 -> np_clip x 0 1 = x.
Proof.
  intros H0 H1. unfold np_clip, Qmax, Qmin, GenericMinMax.gmax,
    GenericMinMax.gmin.
  destruct (x ?= 0) eqn:E0.
  - destruct (x ?= 1) eqn:E1; trivial.
    apply Qgt_alt in E1. exfalso. exact (Qlt_not_le _ _ E1 H1).
  - apply Qlt_alt in E0. exfalso. exact (Qlt_not_le _ _ E0 H0).
  - destruct (x ?= 1) eqn:E1; trivial.
    apply Qgt_alt in E1. exfalso. exact (Qlt_not_le _ _ E1 H1).
Qed.

Lemma clipped_clipped (l : list Q) : clipped (clipped l) = clipped l.
Proof.
  unfold clipped. rewrite map_map. apply map_ext. intro x.
  destruct (np_clip_unit x) as [H0 H1]. now apply np_clip_fixed.
Qed.

(** The median of a non-empty list lies between any two bounds of its
    values. *)
Lemma np_median_between (lo hi : Q) (l : list Q) :
  l <> [] ->
  Forall (fun x => lo <= x /\ x <= hi) l ->
  lo <= np_median l /\ np_median l <= hi.
Proof.
  intros Hne H.
  assert (Hn : (0 < List.length l)%nat) by (destruct l; simpl; [easy | lia]).
  assert (S : forall k, (k < List.length l)%nat ->
                lo <= nth k (np_sort l) 0 /\ nth k (np_sort l) 0 <= hi).
  { intros k Hk. rewrite Forall_forall in H. apply H, np_sort_In, nth_In.
    now rewrite np_sort_length. }
  assert (Hhalf : (List.length l / 2 < List.length l)%nat)
    by (apply Nat.div_lt; lia).
  unfold np_median. destruct (Nat.even (List.length l)).
  - destruct (S (List.length l / 2 - 1)%nat) as [A1 A2]; [lia |].
    destruct (S (List.length l / 2)%nat) as [B1 B2]; [lia |].
    set (a := nth (List.length l / 2 - 1) (np_sort l) 0) in *.
    set (b := nth (List.length l / 2) (np_sort l) 0) in *.
    split.
    + apply Qle_shift_div_l; [reflexivity |].
      setoid_replace (lo * 2) with (lo + lo) by ring.
      now apply Qplus_le_compat.
    + apply Qle_shift_div_r; [reflexivity |].
      setoid_replace (hi * 2) with (hi + hi) by ring.
      now apply Qplus_le_compat.
  - now apply S.
Qed.

Lemma filtered_nonempty (x : Q) (l : list Q) : filtered (x :: l) <> [].
Proof.
  unfold filtered.
  destruct (select _ _ _) as [| y k] eqn:E; simpl; discriminate.
Qed.

Lemma filtered_In (y : Q) (l : list Q) : In y (filtered l) -> In y (clipped l).
Proof.
  unfold filtered. destruct (List.length _ =? 0)%nat; trivial.
  unfold select. intro H. now apply filter_In in H.
Qed.

End AggregationOrder.

Section AggregationExtras.
Import Aggregation.
Local Open Scope Q_scope.

Lemma filtered_Forall (P : Q -> Prop) (predictions : list Q) :
  Forall (fun x => P (np_clip x 0 1)) predictions ->
  Forall P (filtered predictions).
Proof.
  intro Hall. apply Forall_forall. intros y Hy. apply filtered_In in Hy.
  unfold clipped in Hy. apply in_map_iff in Hy. destruct Hy as (z & <- & Hz).
  rewrite Forall_forall in Hall. now apply Hall.
Qed.

(** X10: scores outside [0,1] count as 0 or 1 and scores inside count as
    they are: a sequence and its clipped sequence have the same aggregate,
    and clipping leaves a sequence of values in [0,1] unchanged. *)
Theorem X10_aggregate_of_clipped (predictions : list Q) :
  aggregate_predictions (clipped predictions)
  = aggregate_predictions predictions
  /\ (Forall (fun x => 0 <= x /\ x <= 1) predictions ->
      clipped predictions = predictions).
Proof.
  split.
  - destruct predictions as [| x l]; [reflexivity |].
    change (clipped (x :: l)) with (np_clip x 0 1 :: clipped l).
    unfold aggregate_predictions. f_equal.
    change (np_clip x 0 1 :: clipped l) with (clipped (x :: l)).
    unfold filtered. now rewrite clipped_clipped.
  - intro H. unfold clipped. rewrite <- (map_id predictions) at 2.
    apply map_ext_in. intros x Hx. rewrite Forall_forall in H.
    destruct (H x Hx). now apply np_clip_fixed.
Qed.

End AggregationExtras.

Section PercentileFilter.
Import Aggregation.
Local Open Scope Q_scope.

(** A percentile lies between the two sorted values it interpolates. *)
Lemma np_percentile_between (a : list Q) (q : Q) :
  a <> [] -> 0 <= q -> q <= 100 ->
  let n := List.length a in
  let h := inject_Z (Z.of_nat n - 1) * (q / 100) in
  let prev := Z.to_nat (Qfloor h) in
  let next := Nat.min (prev + 1) (n - 1) in
  (prev <= next)%nat /\ (next < n)%nat
  /\ nth prev (np_sort a) 0 <= np_percentile a q
  /\ np_percentile a q <= nth next (np_sort a) 0.
Proof.
  intros Hne Hq0 Hq1 n h prev next.
  assert (Hn : (0 < n)%nat) by (subst n; destruct a; simpl; [easy | lia]).
  assert (HN : 0 <= inject_Z (Z.of_nat n - 1)).
  { change 0 with (inject_Z 0). rewrite <- Zle_Qle. lia. }
  assert (Ht0 : 0 <= q / 100).
  { apply Qle_shift_div_l; [reflexivity |]. now rewrite Qmult_0_l. }
  assert (Ht1 : q / 100 <= 1).
  { apply Qle_shift_div_r; [reflexivity |]. now rewrite Qmult_1_l. }
  assert (Hh0 : 0 <= h) by (subst h; now apply Qmult_le_0_compat).
  assert (Hh1 : h <= inject_Z (Z.of_nat n - 1)).
  { subst h. set (N := inject_Z (Z.of_nat n - 1)) in *.
    set (t := q / 100) in *. Lqa.nra. }
  assert (F0 : (0 <= Qfloor h)%Z).
  { change 0%Z with (Qfloor 0). now apply Qfloor_resp_le. }
  assert (F1 : (Qfloor h <= Z.of_nat n - 1)%Z).
  { rewrite <- (Qfloor_Z (Z.of_nat n - 1)). now apply Qfloor_resp_le. }
  assert (P : (prev <= n - 1)%nat) by (subst prev; lia).
  assert (PN : (prev <= next)%nat) by (subst next; lia).
  assert (NN : (next < n)%nat) by (subst next; lia).
  split; [exact PN |]. split; [exact NN |].
  pose proof (sorted_nth (np_sort a) prev next (np_sort_sorted a) PN) as S.
  rewrite np_sort_length in S. specialize (S NN).
  pose proof (Qfloor_le h) as G0. pose proof (Qlt_floor h) as G1.
  rewrite inject_Z_plus in G1.
  unfold np_percentile. fold n. fold h. fold prev. fold next.
  set (lo := nth prev (np_sort a) 0) in *.
  set (hi := nth next (np_sort a) 0) in *.
  set (f := inject_Z (Qfloor h)) in *.
  change (inject_Z 1) with 1 in G1.
  split; Lqa.nra.
Qed.

(** Apart from sequences of exactly two scores, the percentile filter always
    keeps at least one score. *)
Lemma select_keeps_one (scores : list Q) :
  scores <> [] -> List.length scores <> 2%nat ->
  select scores (np_percentile scores 5) (np_percentile scores 95) <> [].
Proof.
  intros Hne H2.
  destruct (np_percentile_between scores 5 Hne) as (P5 & N5 & _ & U5);
    [discriminate | discriminate |].
  destruct (np_percentile_between scores 95 Hne) as (P95 & N95 & L95 & _);
    [discriminate | discriminate |].
  cbv zeta in *.
  set (n := List.length scores) in *.
  set (h5 := inject_Z (Z.of_nat n - 1) * (5 / 100)) in *.
  set (h95 := inject_Z (Z.of_nat n - 1) * (95 / 100)) in *.
  set (next5 := Nat.min (Z.to_nat (Qfloor h5) + 1) (n - 1)) in *.
  set (prev95 := Z.to_nat (Qfloor h95)) in *.
  assert (Hn : (0 < n)%nat) by (subst n; destruct scores; simpl; [easy | lia]).
  assert (K : (next5 <= prev95)%nat).
  { destruct (Nat.eq_dec n 1) as [E1 | E1]; [subst next5; lia |].
    assert (N2 : 2 <= inject_Z (Z.of_nat n - 1)).
    { change 2 with (inject_Z 2). rewrite <- Zle_Qle. lia. }
    assert (E5 : h5 == inject_Z (Z.of_nat n - 1) * (5 # 100))
      by (subst h5; apply Qmult_comp; reflexivity).
    assert (E95 : h95 == inject_Z (Z.of_nat n - 1) * (95 # 100))
      by (subst h95; apply Qmult_comp; reflexivity).
    pose proof (Qfloor_le h5) as G.
    assert (F : (Qfloor h5 + 1 <= Qfloor h95)%Z).
    { rewrite <- (Qfloor_Z (Qfloor h5 + 1)). apply Qfloor_resp_le.
      rewrite inject_Z_plus. change (inject_Z 1) with 1.
      set (N := inject_Z (Z.of_nat n - 1)) in *.
      set (f := inject_Z (Qfloor h5)) in *.
      clearbody f N. clear - E5 E95 G N2. clearbody h5 h95. Lqa.lra. }
    assert (F0 : (0 <= Qfloor h5)%Z).
    { change 0%Z with (Qfloor 0). apply Qfloor_resp_le.
      set (N := inject_Z (Z.of_nat n - 1)) in *.
      clearbody N. clear - E5 N2. clearbody h5. Lqa.lra. }
    subst next5 prev95. lia. }
  assert (P95n : (prev95 < n)%nat) by lia.
  set (x := nth next5 (np_sort scores) 0) in *.
  assert (Hx : In x scores).
  { apply np_sort_In. apply nth_In. now rewrite np_sort_length. }
  assert (X95 : x <= np_percentile scores 95).
  { apply Qle_trans with (nth prev95 (np_sort scores) 0); [| exact L95].
    apply sorted_nth; [apply np_sort_sorted | exact K |].
    now rewrite np_sort_length. }
  intro E.
  assert (I : In x (select scores (np_percentile scores 5)
                      (np_percentile scores 95))).
  { unfold select. apply filter_In. split; [exact Hx |].
    apply andb_true_iff. split; now apply Qle_bool_iff. }
  rewrite E in I. exact I.
Qed.

End PercentileFilter.

(** ** Score aggregation on floats *)

Section AggregationFloatFacts.
Import Aggregation.
Local Open Scope Q_scope.

Lemma to_float32_nan (x : pyfloat) : to_float32 x = NaN -> x = NaN.
Proof.
  destruct x as [q | | |]; simpl; try discriminate; trivial.
  destruct (q ?= 0); try discriminate;
    match goal with |- context [Qle_bool ?a ?b] => destruct (Qle_bool a b) end;
    discriminate.
Qed.

Lemma np_clip_value (x : pyfloat) :
  x <> NaN ->
  AggregationFloat.np_clip (to_float32 x)
  = Some (AggregationFloat.score_value x).
Proof.
  intro H. unfold AggregationFloat.score_value.
  destruct (to_float32 x) as [r | | |] eqn:E; try reflexivity.
  elim H. now apply to_float32_nan.
Qed.

Lemma score_value_unit (x : pyfloat) : in01 (AggregationFloat.score_value x).
Proof.
  unfold AggregationFloat.score_value.
  destruct (to_float32 x) as [r | | |]; simpl;
    try (split; discriminate).
  apply np_clip_unit.
Qed.

Lemma clipped_no_nan (l : list pyfloat) :
  Forall (fun x => x <> NaN) l ->
  AggregationFloat.clipped l
  = map Some (map AggregationFloat.score_value l).
Proof.
  unfold AggregationFloat.clipped.
  induction 1 as [| x l Hx Hl IH]; simpl; [reflexivity |].
  now rewrite (np_clip_value x Hx), IH.
Qed.

Lemma has_nan_some (qs : list Q) : AggregationFloat.has_nan (map Some qs) = false.
Proof. induction qs; simpl; trivial. Qed.

Lemma values_some (qs : list Q) : AggregationFloat.values (map Some qs) = qs.
Proof. induction qs as [| q qs IH]; simpl; [reflexivity | now rewrite IH]. Qed.

Lemma select_some (qs : list Q) (lo hi : Q) :
  AggregationFloat.select (map Some qs) (Some lo) (Some hi)
  = map Some (select qs lo hi).
Proof.
  unfold AggregationFloat.select, select.
  induction qs as [| q qs IH]; simpl; [reflexivity |].
  destruct (Qle_bool lo q && Qle_bool q hi); simpl; now rewrite IH.
Qed.

Lemma clipped_fixed (qs : list Q) : Forall in01 qs -> clipped qs = qs.
Proof.
  intro H. unfold clipped. rewrite <- (map_id qs) at 2.
  apply map_ext_in. intros x Hx. rewrite Forall_forall in H.
  destruct (H x Hx). now apply np_clip_fixed.
Qed.

Lemma score_values_unit (l : list pyfloat) :
  Forall in01 (map AggregationFloat.score_value l).
Proof.
  apply Forall_forall. intros q Hq. apply in_map_iff in Hq.
  destruct Hq as (x & <- & _). apply score_value_unit.
Qed.

(** Without a nan the computation on floats is the exact one on the
    clipped binary32 values. *)
Lemma filtered_no_nan (l : list pyfloat) :
  Forall (fun x => x <> NaN) l ->
  AggregationFloat.filtered l
  = map Some (filtered (map AggregationFloat.score_value l))
  /\ AggregationFloat.select (AggregationFloat.clipped l)
       (AggregationFloat.np_percentile (AggregationFloat.clipped l) 5)
       (AggregationFloat.np_percentile (AggregationFloat.clipped l) 95)
     = map Some
         (select (map AggregationFloat.score_value l)
            (np_percentile (map AggregationFloat.score_value l) 5)
            (np_percentile (map AggregationFloat.score_value l) 95)).
Proof.
  intro H. unfold AggregationFloat.filtered, filtered.
  rewrite (clipped_no_nan l H).
  rewrite (clipped_fixed _ (score_values_unit l)).
  set (qs := map AggregationFloat.score_value l).
  unfold AggregationFloat.np_percentile.
  rewrite has_nan_some, values_some, select_some, length_map.
  split; [| reflexivity].
  now destruct (List.length _ =? 0)%nat.
Qed.

Lemma aggregate_no_nan (l : list pyfloat) :
  Forall (fun x => x <> NaN) l ->
  AggregationFloat.aggregate_predictions l
  = Finite (aggregate_predictions (map AggregationFloat.score_value l)).
Proof.
  intro H. destruct l as [| x l]; [reflexivity |].
  unfold AggregationFloat.aggregate_predictions.
  destruct (filtered_no_nan (x :: l) H) as [F _]. rewrite F.
  unfold AggregationFloat.np_median. now rewrite has_nan_some, values_some.
Qed.

Lemma has_nan_In (a : AggregationFloat.array) :
  In None a -> AggregationFloat.has_nan a = true.
Proof.
  induction a as [| y a IH]; simpl; [tauto |].
  intros [-> | H]; [reflexivity |].
  rewrite (IH H). now destruct y.
Qed.

Lemma select_nan (a : AggregationFloat.array) (upper : option Q) :
  AggregationFloat.select a None upper = [].
Proof.
  unfold AggregationFloat.select.
  induction a as [| y a IH]; simpl; [reflexivity |].
  now destruct y.
Qed.

(** A nan among the scores comes out as the result. *)
Lemma aggregate_nan (l : list pyfloat) :
  In NaN l -> AggregationFloat.aggregate_predictions l = NaN.
Proof.
  intro H. destruct l as [| x l]; [now elim H |].
  unfold AggregationFloat.aggregate_predictions, AggregationFloat.filtered.
  assert (N : AggregationFloat.has_nan (AggregationFloat.clipped (x :: l))
              = true).
  { apply has_nan_In. unfold AggregationFloat.clipped.
    exact (in_map (fun y => AggregationFloat.np_clip (to_float32 y))
             (x :: l) NaN H). }
  unfold AggregationFloat.np_percentile at 1. rewrite N.
  rewrite select_nan. cbn [List.length Nat.eqb].
  unfold AggregationFloat.np_median. now rewrite N.
Qed.

End AggregationFloatFacts.

Section AggregationFloatClaims.
Import Aggregation.
Local Open Scope Q_scope.

(** C3: on the ten scenario scores, cast to binary32, the aggregate is the
    binary32 number nearest to 0.80, that is 13421773 / 2^24, within
    2 / 10^8 of 0.80.  Clipping leaves the cast scores as they are, the 5th
    and 95th percentiles lie in (0.37, 0.38) and (0.83, 0.84), the values
    kept are those within the two bounds (the cast of 0.05 is not among
    them), and the result is the median of the kept values; for every
    input the full clipped array is used exactly when nothing is kept. *)
Theorem C3_scenario_aggregate :
  let scores := AggregationFloat.clipped AggregationFloat.scenario_scores in
  let cast := fun q => match to_float32 (Finite q) with
                       | Finite r => Some r
                       | _ => None
                       end in
  (exists r, AggregationFloat.aggregate_predictions
               AggregationFloat.scenario_scores = Finite r
             /\ r == 13421773 # 16777216
             /\ to_float32 (Finite 0.80) = Finite (13421773 # 16777216)
             /\ 0.80 < r /\ r < 0.80000002)
  /\ scores = map cast scenario_scores
  /\ (exists p5, AggregationFloat.np_percentile scores 5 = Some p5
                 /\ 0.37 < p5 /\ p5 < 0.38)
  /\ (exists p95, AggregationFloat.np_percentile scores 95 = Some p95
                  /\ 0.83 < p95 /\ p95 < 0.84)
  /\ AggregationFloat.filtered AggregationFloat.scenario_scores
     = map cast [0.81; 0.79; 0.83; 0.80; 0.82; 0.78; 0.80; 0.77]
  /\ ~ In (cast 0.05)
         (AggregationFloat.filtered AggregationFloat.scenario_scores)
  /\ AggregationFloat.aggregate_predictions AggregationFloat.scenario_scores
     = AggregationFloat.to_pyfloat
         (AggregationFloat.np_median
            (AggregationFloat.filtered AggregationFloat.scenario_scores))
  /\ (forall predictions : list pyfloat,
        let scores := AggregationFloat.clipped predictions in
        let kept := AggregationFloat.select scores
                      (AggregationFloat.np_percentile scores 5)
                      (AggregationFloat.np_percentile scores 95) in
        (kept = [] -> AggregationFloat.filtered predictions = scores)
        /\ (kept <> [] -> AggregationFloat.filtered predictions = kept)).
Proof.
  cbv zeta.
  split.
  { eexists. split; [vm_compute; reflexivity |].
    split; [reflexivity |]. split; [reflexivity |]. split; reflexivity. }
  split; [reflexivity |].
  split; [eexists; split; [vm_compute; reflexivity | split; reflexivity] |].
  split; [eexists; split; [vm_compute; reflexivity | split; reflexivity] |].
  split; [vm_compute; reflexivity |].
  split.
  { vm_compute. intuition discriminate. }
  split; [reflexivity |].
  intros predictions. unfold AggregationFloat.filtered.
  set (kept := AggregationFloat.select _ _ _).
  split.
  - intros ->. reflexivity.
  - intro N. destruct kept; [now elim N | reflexivity].
Qed.

(** C7, as the spec words it, fails on a sequence that holds a nan: the
    clip keeps the nan, both percentiles are nan, the mask keeps nothing,
    the fall-back takes all the scores and their median is nan, which is
    no number of [0,1]. *)
Lemma C7_counterexample :
  let scores := AggregationFloat.clipped [NaN; Finite 0.5; Finite 0.25] in
  AggregationFloat.aggregate_predictions [NaN; Finite 0.5; Finite 0.25] = NaN
  /\ nth 0 scores (Some 0) = None
  /\ AggregationFloat.np_percentile scores 5 = None
  /\ AggregationFloat.np_percentile scores 95 = None
  /\ AggregationFloat.select scores None None = []
  /\ AggregationFloat.filtered [NaN; Finite 0.5; Finite 0.25] = scores
  /\ AggregationFloat.np_median scores = None
  /\ ~ (exists q,
          AggregationFloat.aggregate_predictions [NaN; Finite 0.5; Finite 0.25]
          = Finite q /\ 0 <= q /\ q <= 1).
Proof.
  cbv zeta.
  split; [reflexivity |]. split; [reflexivity |]. split; [reflexivity |].
  split; [reflexivity |]. split; [reflexivity |]. split; [reflexivity |].
  split; [reflexivity |].
  intros (q & H & _). discriminate H.
Qed.

(** C7 (amended): the aggregate of the empty sequence is 0; for every
    sequence of floats without a nan, finite or infinite, inside or
    outside [0,1], the function returns a number of [0,1]; for a sequence
    that holds a nan it returns nan; it raises nothing. *)
Theorem C7_aggregate_range (predictions : list pyfloat)
    (Hnan : Forall (fun x => x <> NaN) predictions) :
  AggregationFloat.aggregate_predictions [] = Finite 0
  /\ (exists q, AggregationFloat.aggregate_predictions predictions = Finite q
                /\ 0 <= q /\ q <= 1)
  /\ (forall scores : list pyfloat,
        In NaN scores ->
        AggregationFloat.aggregate_predictions scores = NaN).
Proof.
  split; [reflexivity |]. split; [| exact aggregate_nan].
  rewrite (aggregate_no_nan predictions Hnan).
  eexists. split; [reflexivity |]. apply aggregate_unit_interval.
Qed.

Lemma C7_aggregate_range_witness :
  Forall (fun x => x <> NaN) [PosInf; Finite 0.5; NegInf; Finite 7]
  /\ exists q,
       AggregationFloat.aggregate_predictions
         [PosInf; Finite 0.5; NegInf; Finite 7] = Finite q
       /\ 0 <= q /\ q <= 1.
Proof.
  assert (H : Forall (fun x => x <> NaN)
                [PosInf; Finite 0.5; NegInf; Finite 7])
    by (repeat constructor; discriminate).
  split; [exact H |].
  apply (C7_aggregate_range [PosInf; Finite 0.5; NegInf; Finite 7] H).
Defined.

End AggregationFloatClaims.

Section AggregationFloatExtras.
Import Aggregation.
Local Open Scope Q_scope.

(** X8: for a non-empty sequence without a nan, when the clipped binary32
    value of every score lies between [lo] and [hi], so does the
    aggregate: scores whose stored values all reach a threshold cannot
    aggregate to a value below it. *)
Theorem X8_aggregate_between (lo hi : Q) (predictions : list pyfloat)
    (Hne : predictions <> [])
    (Hnan : Forall (fun x => x <> NaN) predictions)
    (Hall : Forall (fun x => lo <= AggregationFloat.score_value x
                             /\ AggregationFloat.score_value x <= hi)
              predictions) :
  exists q, AggregationFloat.aggregate_predictions predictions = Finite q
            /\ lo <= q /\ q <= hi.
Proof.
  rewrite (aggregate_no_nan predictions Hnan).
  eexists. split; [reflexivity |].
  destruct predictions as [| x l]; [now elim Hne |].
  cbn [map aggregate_predictions].
  apply np_median_between; [apply filtered_nonempty |].
  apply (filtered_Forall (fun v => lo <= v /\ v <= hi)).
  apply Forall_forall. intros v Hv.
  change (AggregationFloat.score_value x
          :: map AggregationFloat.score_value l)
    with (map AggregationFloat.score_value (x :: l)) in Hv.
  apply in_map_iff in Hv. destruct Hv as (y & <- & Hy).
  destruct (score_value_unit y) as [U0 U1].
  rewrite (np_clip_fixed _ U0 U1).
  rewrite Forall_forall in Hall. now apply Hall.
Qed.

Lemma X8_aggregate_between_witness :
  [Finite 0.8; Finite 0.9; Finite 0.85] <> []
  /\ exists q,
       AggregationFloat.aggregate_predictions
         [Finite 0.8; Finite 0.9; Finite 0.85] = Finite q
       /\ 0.75 <= q /\ q <= 1.
Proof.
  assert (N : [Finite 0.8; Finite 0.9; Finite 0.85] <> []) by discriminate.
  split; [exact N |].
  apply (X8_aggregate_between 0.75 1 [Finite 0.8; Finite 0.9; Finite 0.85] N).
  - repeat constructor; discriminate.
  - repeat constructor; vm_compute; discriminate.
Defined.

(** X9: when all scores of a non-empty sequence without a nan have the same
    clipped binary32 value, that value is the aggregate; three copies of
    0.7 aggregate to the binary32 number nearest to 0.7. *)
Theorem X9_aggregate_unanimous (y : Q) (predictions : list pyfloat)
    (Hne : predictions <> [])
    (Hnan : Forall (fun x => x <> NaN) predictions)
    (Hall : Forall (fun x => AggregationFloat.score_value x == y)
              predictions) :
  exists q, AggregationFloat.aggregate_predictions predictions = Finite q
            /\ q == y.
Proof.
  rewrite (aggregate_no_nan predictions Hnan).
  eexists. split; [reflexivity |].
  destruct predictions as [| x l]; [now elim Hne |].
  cbn [map aggregate_predictions].
  destruct (np_median_between y y
              (filtered (AggregationFloat.score_value x
                         :: map AggregationFloat.score_value l)))
    as [A B].
  - apply filtered_nonempty.
  - apply (filtered_Forall (fun v => y <= v /\ v <= y)).
    apply Forall_forall. intros v Hv.
    change (AggregationFloat.score_value x
            :: map AggregationFloat.score_value l)
      with (map AggregationFloat.score_value (x :: l)) in Hv.
    apply in_map_iff in Hv. destruct Hv as (z & <- & Hz).
    destruct (score_value_unit z) as [U0 U1].
    rewrite (np_clip_fixed _ U0 U1).
    rewrite Forall_forall in Hall. rewrite (Hall z Hz).
    split; apply Qle_refl.
  - now apply Qle_antisym.
Qed.

Lemma X9_aggregate_unanimous_witness :
  repeat (Finite 0.7) 3 <> []
  /\ exists q,
       AggregationFloat.aggregate_predictions (repeat (Finite 0.7) 3)
       = Finite q
       /\ q == 11744051 # 16777216.
Proof.
  assert (N : repeat (Finite 0.7) 3 <> []) by discriminate.
  split; [exact N |].
  apply (X9_aggregate_unanimous (11744051 # 16777216)
           (repeat (Finite 0.7) 3) N).
  - repeat constructor; discriminate.
  - repeat constructor; vm_compute; reflexivity.
Defined.

(** X11: on a sequence without a nan of one score, or of three or more,
    the percentile filter keeps at least one score, so the fall-back to
    the unfiltered scores is not taken. *)
Theorem X11_filter_keeps_some (predictions : list pyfloat)
    (Hne : predictions <> [])
    (Hlen : List.length predictions <> 2%nat)
    (Hnan : Forall (fun x => x <> NaN) predictions) :
  let scores := AggregationFloat.clipped predictions in
  let kept := AggregationFloat.select scores
                (AggregationFloat.np_percentile scores 5)
                (AggregationFloat.np_percentile scores 95) in
  kept <> [] /\ AggregationFloat.filtered predictions = kept.
Proof.
  cbv zeta.
  destruct (filtered_no_nan predictions Hnan) as [_ S]. rewrite S.
  set (qs := map AggregationFloat.score_value predictions).
  assert (K : select qs (np_percentile qs 5) (np_percentile qs 95) <> []).
  { apply select_keeps_one.
    - subst qs. destruct predictions; [now elim Hne | discriminate].
    - subst qs. now rewrite length_map. }
  split.
  - intro E. apply K. now apply map_eq_nil in E.
  - unfold AggregationFloat.filtered. rewrite S. fold qs.
    destruct (select qs _ _) as [| z k]; [now elim K | reflexivity].
Qed.

Lemma X11_filter_keeps_some_witness :
  [Finite 0.2; Finite 0.5; Finite 0.9] <> []
  /\ List.length [Finite 0.2; Finite 0.5; Finite 0.9] <> 2%nat
  /\ AggregationFloat.filtered [Finite 0.2; Finite 0.5; Finite 0.9]
     = AggregationFloat.select
         (AggregationFloat.clipped [Finite 0.2; Finite 0.5; Finite 0.9])
         (AggregationFloat.np_percentile
            (AggregationFloat.clipped [Finite 0.2; Finite 0.5; Finite 0.9]) 5)
         (AggregationFloat.np_percentile
            (AggregationFloat.clipped [Finite 0.2; Finite 0.5; Finite 0.9]) 95).
Proof.
  assert (N : [Finite 0.2; Finite 0.5; Finite 0.9] <> []) by discriminate.
  assert (L : List.length [Finite 0.2; Finite 0.5; Finite 0.9] <> 2%nat)
    by discriminate.
  assert (H : Forall (fun x => x <> NaN) [Finite 0.2; Finite 0.5; Finite 0.9])
    by (repeat constructor; discriminate).
  split; [exact N |]. split; [exact L |].
  apply (X11_filter_keeps_some [Finite 0.2; Finite 0.5; Finite 0.9] N L H).
Defined.

End AggregationFloatExtras.

(** ** Audio signal fusion *)

Section AudioFusionFacts.
Import Audio.
Local Open Scope R_scope.

Lemma Rgtb_true (x y : R) : y < x -> Rgtb x y = true.
Proof. intro H. unfold Rgtb. destruct (Rlt_dec y x); [reflexivity | lra]. Qed.

Lemma Rgtb_false (x y : R) : x <= y -> Rgtb x y = false.
Proof. intro H. unfold Rgtb. destruct (Rlt_dec y x); [lra | reflexivity]. Qed.

Lemma weighted_sum_missing (signals w : dict) (k : string) (ks : list string)
    (acc : R) :
  In k ks -> getitem signals k = None -> weighted_sum signals w ks acc = None.
Proof.
  intros Hin Hk. revert acc.
  induction ks as [| k' ks IH]; intro acc; [now elim Hin |].
  cbn [weighted_sum]. destruct Hin as [-> | Hin].
  - now rewrite Hk.
  - destruct (getitem signals k'); [| reflexivity].
    destruct (getitem w k'); [| reflexivity]. now apply IH.
Qed.

(** The population variance of five values in [0,1] is at most 1/4. *)
Lemma variance_five_unit (a b c d e : R) :
  0 <= a <= 1 -> 0 <= b <= 1 -> 0 <= c <= 1 -> 0 <= d <= 1 -> 0 <= e <= 1 ->
  let l := [a; b; c; d; e] in
  0 <= np_mean (map (fun x => (x - np_mean l) * (x - np_mean l)) l) <= 1 / 4.
Proof.
  intros Ha Hb Hc Hd He. cbv zeta. unfold np_mean, np_sum. simpl.
  set (m := (0 + a + b + c + d + e) / (1 + 1 + 1 + 1 + 1)).
  assert (Em : 5 * m = a + b + c + d + e) by (unfold m; field).
  assert (Hm : 0 <= m <= 1) by lra.
  pose proof (Rle_0_sqr (a - m)) as Qa. pose proof (Rle_0_sqr (b - m)) as Qb.
  pose proof (Rle_0_sqr (c - m)) as Qc. pose proof (Rle_0_sqr (d - m)) as Qd.
  pose proof (Rle_0_sqr (e - m)) as Qe. unfold Rsqr in *.
  split; [lra |].
  assert (Sq : (a - m) * (a - m) + (b - m) * (b - m) + (c - m) * (c - m)
               + (d - m) * (d - m) + (e - m) * (e - m)
               = a * a + b * b + c * c + d * d + e * e - 5 * (m * m)).
  { replace (a * a + b * b + c * c + d * d + e * e - 5 * (m * m))
      with (a * a + b * b + c * c + d * d + e * e - 2 * m * (5 * m)
            + 5 * (m * m)) by ring.
    rewrite Em. ring. }
  assert (Aa : a * a <= a) by nra. assert (Ab : b * b <= b) by nra.
  assert (Ac : c * c <= c) by nra. assert (Ad : d * d <= d) by nra.
  assert (Ae : e * e <= e) by nra.
  assert (Mm : m - m * m <= 1 / 4).
  { pose proof (Rle_0_sqr (m - 1 / 2)) as Q. unfold Rsqr in Q.
    replace ((m - 1 / 2) * (m - 1 / 2)) with (m * m - m + 1 / 4) in Q by field.
    lra. }
  lra.
Qed.

End AudioFusionFacts.

Section AudioExtras.
Import Audio.
Local Open Scope R_scope.

(** X13: the fusion fails, with the [KeyError] of a missing key, exactly
    when one of the five weighted signal names is absent from the
    dictionary; with all five present it returns a result, whatever other
    keys there are. *)
Theorem X13_fuse_key_error (signals : dict) :
  fuse signals = None <->
  exists k, In k (map fst weights) /\ getitem signals k = None.
Proof.
  split.
  - intro H.
    destruct (getitem signals "spectral_inconsistency") as [s1 |] eqn:E1;
      [| exists "spectral_inconsistency"; simpl; auto].
    destruct (getitem signals "pitch_abnormality") as [s2 |] eqn:E2;
      [| exists "pitch_abnormality"; simpl; auto].
    destruct (getitem signals "energy_gaps") as [s3 |] eqn:E3;
      [| exists "energy_gaps"; simpl; auto].
    destruct (getitem signals "high_freq_artifacts") as [s4 |] eqn:E4;
      [| exists "high_freq_artifacts"; simpl; auto 6].
    destruct (getitem signals "temporal_discontinuity") as [s5 |] eqn:E5;
      [| exists "temporal_discontinuity"; simpl; auto 7].
    exfalso. revert H. unfold fuse, final_score.
    cbn [map fst weights weighted_sum getitem String.eqb Ascii.eqb Bool.eqb].
    rewrite E1, E2, E3, E4, E5.
    cbn [map fst weights weighted_sum getitem String.eqb Ascii.eqb Bool.eqb].
    unfold _generate_explanation. rewrite E1, E2, E4.
    destruct (Rgtb _ 0.7); [discriminate |].
    destruct (Rgtb _ 0.4); discriminate.
  - intros (k & Hin & Hk). unfold fuse, final_score.
    now rewrite (weighted_sum_missing signals weights k _ 0 Hin Hk).
Qed.

(** X15: for five signals in [0,1] the reported confidence is at least
    0.5: their standard deviation cannot exceed 1/2, so the floor of 0.30
    is never what is returned. *)
Theorem X15_confidence_at_least_half (a b c d e : R)
    (Ha : 0 <= a <= 1) (Hb : 0 <= b <= 1) (Hc : 0 <= c <= 1)
    (Hd : 0 <= d <= 1) (He : 0 <= e <= 1) :
  np_std [a; b; c; d; e] <= 1 / 2
  /\ 0.5 <= _calculate_confidence (make_signals a b c d e) <= 0.95.
Proof.
  assert (S : np_std [a; b; c; d; e] <= 1 / 2).
  { unfold np_std.
    destruct (variance_five_unit a b c d e Ha Hb Hc Hd He) as [V0 V1].
    cbv zeta in V0, V1.
    replace (1 / 2) with (sqrt ((1 / 2) * (1 / 2)))
      by (apply sqrt_square; lra).
    apply sqrt_le_1_alt. lra. }
  split; [exact S |].
  unfold _calculate_confidence.
  change (values (make_signals a b c d e)) with [a; b; c; d; e].
  unfold np_clip. split.
  - apply Rmin_glb; [| lra].
    apply Rle_trans with (1 - np_std [a; b; c; d; e]); [lra | apply Rmax_l].
  - apply Rmin_r.
Qed.

Lemma X15_confidence_at_least_half_witness :
  0 <= 1 <= 1 /\ 0 <= 0 <= 1
  /\ 0.5 <= _calculate_confidence (make_signals 1 0 1 0 1) <= 0.95.
Proof.
  assert (H1 : 0 <= 1 <= 1) by lra. assert (H0 : 0 <= 0 <= 1) by lra.
  split; [exact H1 |]. split; [exact H0 |].
  apply (X15_confidence_at_least_half 1 0 1 0 1 H1 H0 H1 H0 H1).
Defined.

(** X16: when the score is above 0.7 but none of the three signals the
    explanation looks at (spectral, pitch, high frequency) is above 0.6, the
    explanation names no reason at all: it reads
    "LIKELY DEEPFAKE: Detected .". *)
Theorem X16_explanation_without_reason (a b c d e : R)
    (Ha : a <= 0.6) (Hb : b <= 0.6) (Hd : d <= 0.6)
    (Hs : 0.7 < a * 0.25 + b * 0.20 + c * 0.15 + d * 0.25 + e * 0.15) :
  exists res, fuse (make_signals a b c d e) = Some res
              /\ explanation res = "LIKELY DEEPFAKE: Detected .".
Proof.
  unfold fuse. rewrite final_score_make_signals.
  unfold _generate_explanation.
  rewrite (Rgtb_true _ 0.7) by lra.
  cbn [make_signals getitem String.eqb Ascii.eqb Bool.eqb].
  rewrite (Rgtb_false a 0.6 Ha), (Rgtb_false b 0.6 Hb), (Rgtb_false d 0.6 Hd).
  eexists. split; reflexivity.
Qed.

Lemma X16_explanation_without_reason_witness :
  exists res, fuse (make_signals 0.6 0.6 1 0.6 1) = Some res
              /\ explanation res = "LIKELY DEEPFAKE: Detected .".
Proof.
  apply (X16_explanation_without_reason 0.6 0.6 1 0.6 1); lra.
Defined.

End AudioExtras.

(** ** The five audio checks *)

Section AudioCheckFacts.
Import Audio AudioChecks.
Local Open Scope R_scope.

Lemma Rltb_true (x y : R) : x < y -> Rltb x y = true.
Proof. intro H. unfold Rltb. destruct (Rlt_dec x y); [reflexivity | lra]. Qed.

Lemma spectral_values (x : R) :
  _check_spectral_consistency x = 0.8
  \/ _check_spectral_consistency x = 0.7
  \/ _check_spectral_consistency x = 0.1.
Proof.
  unfold _check_spectral_consistency.
  destruct (Rltb x 0.01); [auto |]. destruct (Rgtb x 0.5); auto.
Qed.

Lemma pitch_bounds (n : nat) (s r : R) :
  0.15 <= _check_pitch_naturalness n s r <= 0.75.
Proof.
  unfold _check_pitch_naturalness.
  destruct (n <? 10)%nat; [lra |].
  destruct (Rltb s 5 || Rltb r 20); [lra |].
  destruct (Rgtb s 80); lra.
Qed.

Lemma energy_bounds (x : R) : 0.2 <= _check_energy_continuity x <= 0.7.
Proof.
  unfold _check_energy_continuity. destruct (Rgtb x 0.3); lra.
Qed.

Lemma high_frequency_values (x : R) :
  _check_high_frequency_quality x = 0.8
  \/ _check_high_frequency_quality x = 0.5
  \/ _check_high_frequency_quality x = 0.1.
Proof.
  unfold _check_high_frequency_quality.
  destruct (Rltb x (-20)); [auto |]. destruct (Rltb x (-15)); auto.
Qed.

Lemma temporal_bounds (z : Z) : 0.1 <= _check_temporal_consistency z <= 0.75.
Proof.
  unfold _check_temporal_consistency.
  destruct (5 <? z)%Z; [lra |]. destruct (2 <? z)%Z; lra.
Qed.

End AudioCheckFacts.

Section AudioCheckExtras.
Import Audio AudioChecks.
Local Open Scope R_scope.

(** X18: whenever the analysis scores above 0.7, its explanation names
    both the spectral and the high-frequency reason, with the pitch reason
    between them or not: a score that high needs both of those checks to
    have flagged the clip, so the reason list is never empty. *)
Theorem X18_audio_deepfake_reasons (f : Features) (sc : R)
    (Hrun : run_audio_inference f = Some sc) (Hsc : 0.7 < sc) :
  exists res,
    analyze_audio f = Some res
    /\ (explanation res
        = "LIKELY DEEPFAKE: Detected unnatural spectral patterns, robotic pitch contours, weak high-frequency content."
        \/ explanation res
           = "LIKELY DEEPFAKE: Detected unnatural spectral patterns, weak high-frequency content.").
Proof.
  revert Hrun.
  unfold run_audio_inference, analyze_audio, signals_of_features, fuse.
  rewrite final_score_make_signals.
  set (s1 := _check_spectral_consistency (spectral_flux f)).
  set (s2 := _check_pitch_naturalness (voiced_frames f) (pitch_std f)
               (pitch_range f)).
  set (s3 := _check_energy_continuity (abruptness_ratio f)).
  set (s4 := _check_high_frequency_quality (ratio f)).
  set (s5 := _check_temporal_consistency (large_jumps f)).
  set (total := 0 + s1 * 0.25 + s2 * 0.20 + s3 * 0.15 + s4 * 0.25 + s5 * 0.15).
  destruct (generate_explanation_make_signals s1 s2 s3 s4 s5 total)
    as [text Htext].
  rewrite Htext. cbn [score]. intro Hrun. injection Hrun as Hrun.
  eexists. split; [reflexivity |]. cbn [explanation].
  revert Htext. unfold _generate_explanation.
  rewrite (Rgtb_true total 0.7) by lra.
  cbn [make_signals getitem String.eqb Ascii.eqb Bool.eqb].
  pose proof (pitch_bounds (voiced_frames f) (pitch_std f) (pitch_range f))
    as B2.
  pose proof (energy_bounds (abruptness_ratio f)) as B3.
  pose proof (temporal_bounds (large_jumps f)) as B5.
  fold s2 in B2. fold s3 in B3. fold s5 in B5.
  assert (G1 : Rgtb s1 0.6 = true).
  { apply Rgtb_true.
    destruct (spectral_values (spectral_flux f)) as [E1 | [E1 | E1]];
      fold s1 in E1; try lra.
    destruct (high_frequency_values (ratio f)) as [E4 | [E4 | E4]];
      fold s4 in E4; unfold total in Hrun; lra. }
  assert (G4 : Rgtb s4 0.6 = true).
  { apply Rgtb_true.
    destruct (high_frequency_values (ratio f)) as [E4 | [E4 | E4]];
      fold s4 in E4; try lra;
    destruct (spectral_values (spectral_flux f)) as [E1 | [E1 | E1]];
      fold s1 in E1; unfold total in Hrun; lra. }
  rewrite G1, G4.
  destruct (Rgtb s2 0.6); intro Htext; injection Htext as <-; auto.
Qed.

Lemma X18_audio_deepfake_reasons_witness :
  let f := {| spectral_flux := 0; voiced_frames := 20; pitch_std := 1;
              pitch_range := 1; abruptness_ratio := 1; ratio := -30;
              large_jumps := 6 |} in
  run_audio_inference f
  = Some (0 + 0.8 * 0.25 + 0.75 * 0.20 + 0.7 * 0.15 + 0.8 * 0.25 + 0.75 * 0.15)
  /\ exists res, analyze_audio f = Some res.
Proof.
  cbv zeta.
  set (f := {| spectral_flux := 0; voiced_frames := 20; pitch_std := 1;
               pitch_range := 1; abruptness_ratio := 1; ratio := -30;
               large_jumps := 6 |}).
  assert (R : run_audio_inference f
              = Some (0 + 0.8 * 0.25 + 0.75 * 0.20 + 0.7 * 0.15 + 0.8 * 0.25
                      + 0.75 * 0.15)).
  { unfold run_audio_inference, analyze_audio, signals_of_features, fuse.
    rewrite final_score_make_signals. unfold f.
    cbn [spectral_flux voiced_frames pitch_std pitch_range abruptness_ratio
         ratio large_jumps].
    assert (C1 : _check_spectral_consistency 0 = 0.8).
    { unfold _check_spectral_consistency. now rewrite Rltb_true by lra. }
    assert (C2 : _check_pitch_naturalness 20 1 1 = 0.75).
    { unfold _check_pitch_naturalness. cbn [Nat.ltb Nat.leb].
      now rewrite (Rltb_true 1 5) by lra. }
    assert (C3 : _check_energy_continuity 1 = 0.7).
    { unfold _check_energy_continuity. now rewrite Rgtb_true by lra. }
    assert (C4 : _check_high_frequency_quality (-30) = 0.8).
    { unfold _check_high_frequency_quality. now rewrite Rltb_true by lra. }
    assert (C5 : _check_temporal_consistency 6 = 0.75) by reflexivity.
    rewrite C1, C2, C3, C4, C5.
    destruct (generate_explanation_make_signals 0.8 0.75 0.7 0.8 0.75
                (0 + 0.8 * 0.25 + 0.75 * 0.20 + 0.7 * 0.15 + 0.8 * 0.25
                 + 0.75 * 0.15)) as [text ->].
    reflexivity. }
  split; [exact R |].
  destruct (X18_audio_deepfake_reasons f _ R) as (res & A & _); [lra |].
  now exists res.
Defined.

End AudioCheckExtras.

(** ** Audio signal fusion with rounding *)

Section AudioRoundedFacts.
Import Audio.
Local Open Scope R_scope.

Variable rnd : R -> R.
Variable eps : R.
Hypothesis Hrnd : AudioRounded.rounds_within rnd eps.
Hypothesis Heps : 0 <= eps <= 1 / 100.

Lemma rnd_near (y : R) : -2 <= y <= 2 -> y - eps <= rnd y <= y + eps.
Proof.
  intro H. pose proof (Hrnd y H) as A.
  unfold Rabs in A. destruct (Rcase_abs (rnd y - y)); lra.
Qed.

(** One term of the sum: the rounded weight, the rounded product and the
    rounded partial sum add at most [3 * eps] to the error. *)
Lemma rounded_step (acc A E s w : R) :
  0 <= s <= 1 -> 0 <= w <= 1 / 4 ->
  0 <= A <= 1 -> 0 <= E <= 1 / 2 ->
  A - E <= acc <= A + E ->
  A + s * w - (E + 3 * eps)
  <= rnd (acc + rnd (s * rnd w))
  <= A + s * w + (E + 3 * eps).
Proof.
  intros Hs Hw HA HE Hacc.
  destruct (rnd_near w) as [W1 W2]; [lra |].
  assert (P1 : s * w - eps <= s * rnd w) by nra.
  assert (P2 : s * rnd w <= s * w + eps) by nra.
  assert (SW : 0 <= s * w <= 1 / 4) by nra.
  destruct (rnd_near (s * rnd w)) as [Q1 Q2]; [lra |].
  destruct (rnd_near (acc + rnd (s * rnd w))) as [S1 S2]; lra.
Qed.

Lemma final_score_rounded (a b c d e : R) :
  AudioRounded.final_score rnd (make_signals a b c d e)
  = Some (rnd (rnd (rnd (rnd (rnd (0 + rnd (a * rnd 0.25))
                              + rnd (b * rnd 0.20))
                         + rnd (c * rnd 0.15))
                    + rnd (d * rnd 0.25))
               + rnd (e * rnd 0.15))).
Proof. reflexivity. Qed.

(** The rounded score is within [15 * eps] of the exact weighted sum. *)
Lemma final_score_rounded_error (a b c d e : R) :
  0 <= a <= 1 -> 0 <= b <= 1 -> 0 <= c <= 1 -> 0 <= d <= 1 -> 0 <= e <= 1 ->
  exists sc,
    AudioRounded.final_score rnd (make_signals a b c d e) = Some sc
    /\ a * 0.25 + b * 0.20 + c * 0.15 + d * 0.25 + e * 0.15 - 15 * eps <= sc
    /\ sc <= a * 0.25 + b * 0.20 + c * 0.15 + d * 0.25 + e * 0.15 + 15 * eps.
Proof.
  intros Ha Hb Hc Hd He. rewrite final_score_rounded.
  eexists. split; [reflexivity |].
  pose proof (rounded_step 0 0 0 a 0.25) as S1.
  set (s1 := rnd (0 + rnd (a * rnd 0.25))) in *.
  pose proof (rounded_step s1 (0 + a * 0.25) (0 + 3 * eps) b 0.20) as S2.
  set (s2 := rnd (s1 + rnd (b * rnd 0.20))) in *.
  pose proof (rounded_step s2 (0 + a * 0.25 + b * 0.20)
                (0 + 3 * eps + 3 * eps) c 0.15) as S3.
  set (s3 := rnd (s2 + rnd (c * rnd 0.15))) in *.
  pose proof (rounded_step s3 (0 + a * 0.25 + b * 0.20 + c * 0.15)
                (0 + 3 * eps + 3 * eps + 3 * eps) d 0.25) as S4.
  set (s4 := rnd (s3 + rnd (d * rnd 0.25))) in *.
  pose proof (rounded_step s4 (0 + a * 0.25 + b * 0.20 + c * 0.15 + d * 0.25)
                (0 + 3 * eps + 3 * eps + 3 * eps + 3 * eps) e 0.15) as S5.
  set (s5 := rnd (s4 + rnd (e * rnd 0.15))) in *.
  assert (T1 : 0 + a * 0.25 - (0 + 3 * eps) <= s1
               <= 0 + a * 0.25 + (0 + 3 * eps)) by (apply S1; lra).
  assert (T2 : 0 + a * 0.25 + b * 0.20 - (0 + 3 * eps + 3 * eps) <= s2
               <= 0 + a * 0.25 + b * 0.20 + (0 + 3 * eps + 3 * eps))
    by (apply S2; lra).
  assert (T3 : 0 + a * 0.25 + b * 0.20 + c * 0.15
               - (0 + 3 * eps + 3 * eps + 3 * eps) <= s3
               <= 0 + a * 0.25 + b * 0.20 + c * 0.15
                  + (0 + 3 * eps + 3 * eps + 3 * eps))
    by (apply S3; lra).
  assert (T4 : 0 + a * 0.25 + b * 0.20 + c * 0.15 + d * 0.25
               - (0 + 3 * eps + 3 * eps + 3 * eps + 3 * eps) <= s4
               <= 0 + a * 0.25 + b * 0.20 + c * 0.15 + d * 0.25
                  + (0 + 3 * eps + 3 * eps + 3 * eps + 3 * eps))
    by (apply S4; lra).
  assert (T5 : 0 + a * 0.25 + b * 0.20 + c * 0.15 + d * 0.25 + e * 0.15
               - (0 + 3 * eps + 3 * eps + 3 * eps + 3 * eps + 3 * eps) <= s5
               <= 0 + a * 0.25 + b * 0.20 + c * 0.15 + d * 0.25 + e * 0.15
                  + (0 + 3 * eps + 3 * eps + 3 * eps + 3 * eps + 3 * eps))
    by (apply S5; lra).
  lra.
Qed.

Lemma fuse_rounded (a b c d e : R) :
  0 <= a <= 1 -> 0 <= b <= 1 -> 0 <= c <= 1 -> 0 <= d <= 1 -> 0 <= e <= 1 ->
  exists res,
    AudioRounded.fuse rnd (make_signals a b c d e) = Some res
    /\ a * 0.25 + b * 0.20 + c * 0.15 + d * 0.25 + e * 0.15 - 15 * eps
       <= score res
    /\ score res
       <= a * 0.25 + b * 0.20 + c * 0.15 + d * 0.25 + e * 0.15 + 15 * eps
    /\ confidence res = _calculate_confidence (make_signals a b c d e).
Proof.
  intros Ha Hb Hc Hd He.
  destruct (final_score_rounded_error a b c d e Ha Hb Hc Hd He)
    as (sc & E & L & U).
  unfold AudioRounded.fuse. rewrite E.
  destruct (generate_explanation_make_signals a b c d e sc) as [text ->].
  eexists. split; [reflexivity |]. cbn [score confidence]. auto.
Qed.

End AudioRoundedFacts.

Section AudioBinary64Claims.
Import PrimFloat.
#[local] Set Warnings "-inexact-float".


End AudioBinary64Claims.

Section AudioRoundedClaims.
Import Audio.
Local Open Scope R_scope.



End AudioRoundedClaims.

Section AudioRoundedExtras.
Import Audio AudioChecks.
Local Open Scope R_scope.

(** X14: the fused score is a weighted mean up to rounding: for a rounding
    within [eps] of the exact result, when every signal lies between [lo]
    and [hi] inside [0,1], the score lies between [lo - 15 * eps] and
    [hi + 15 * eps]. *)
Theorem X14_score_between (rnd : R -> R) (eps lo hi a b c d e : R)
    (Hrnd : AudioRounded.rounds_within rnd eps)
    (Heps : 0 <= eps <= 1 / 100)
    (Hlo : 0 <= lo) (Hhi : hi <= 1)
    (Ha : lo <= a <= hi) (Hb : lo <= b <= hi) (Hc : lo <= c <= hi)
    (Hd : lo <= d <= hi) (He : lo <= e <= hi) :
  exists res, AudioRounded.fuse rnd (make_signals a b c d e) = Some res
              /\ lo - 15 * eps <= score res <= hi + 15 * eps.
Proof.
  destruct (fuse_rounded rnd eps Hrnd Heps a b c d e) as (res & E & L & U & _);
    try lra.
  exists res. split; [exact E |]. lra.
Qed.

Lemma X14_score_between_witness :
  AudioRounded.rounds_within (fun y => y) 0
  /\ exists res,
       AudioRounded.fuse (fun y => y) (make_signals 0.8 0.75 0.7 0.8 0.75)
       = Some res
       /\ 0.7 - 15 * 0 <= score res <= 0.8 + 15 * 0.
Proof.
  assert (R : AudioRounded.rounds_within (fun y => y) 0).
  { intros y _. rewrite Rminus_diag, Rabs_R0. lra. }
  split; [exact R |].
  apply (X14_score_between (fun y => y) 0 0.7 0.8 0.8 0.75 0.7 0.8 0.75 R);
    lra.
Defined.

(** X17: whatever is measured on the waveform, the analysis returns a
    result (no key is ever missing) and, for a rounding within [eps] of
    the exact result, its score lies between [0.125 - 16 * eps] and
    [0.7675 + 16 * eps]: every check returns one of a few fixed scores.
    The score [run_audio_inference] hands on is that score. *)
Theorem X17_audio_score_range (rnd : R -> R) (eps : R) (f : Features)
    (Hrnd : AudioRounded.rounds_within rnd eps)
    (Heps : 0 <= eps <= 1 / 100) :
  exists res, AudioChecksRounded.analyze_audio rnd f = Some res
              /\ 0.125 - 16 * eps <= score res <= 0.7675 + 16 * eps
              /\ AudioChecksRounded.run_audio_inference rnd f
                 = Some (score res).
Proof.
  unfold AudioChecksRounded.run_audio_inference,
    AudioChecksRounded.analyze_audio, AudioChecksRounded.signals_of_features.
  pose proof (pitch_bounds (voiced_frames f) (pitch_std f) (pitch_range f))
    as B2.
  pose proof (energy_bounds (abruptness_ratio f)) as B3.
  pose proof (temporal_bounds (large_jumps f)) as B5.
  assert (B1 : 0.1 <= _check_spectral_consistency (spectral_flux f) <= 0.8)
    by (destruct (spectral_values (spectral_flux f)) as [E | [E | E]];
        rewrite E; lra).
  assert (B4 : 0.1 <= _check_high_frequency_quality (ratio f) <= 0.8)
    by (destruct (high_frequency_values (ratio f)) as [E | [E | E]];
        rewrite E; lra).
  set (c1 := _check_spectral_consistency (spectral_flux f)) in *.
  set (c2 := _check_pitch_naturalness (voiced_frames f) (pitch_std f)
               (pitch_range f)) in *.
  set (c3 := _check_energy_continuity (abruptness_ratio f)) in *.
  set (c4 := _check_high_frequency_quality (ratio f)) in *.
  set (c5 := _check_temporal_consistency (large_jumps f)) in *.
  destruct (rnd_near rnd eps Hrnd Heps c1) as [L1 U1]; [lra |].
  destruct (rnd_near rnd eps Hrnd Heps c2) as [L2 U2]; [lra |].
  destruct (rnd_near rnd eps Hrnd Heps c3) as [L3 U3]; [lra |].
  destruct (rnd_near rnd eps Hrnd Heps c4) as [L4 U4]; [lra |].
  destruct (rnd_near rnd eps Hrnd Heps c5) as [L5 U5]; [lra |].
  destruct (fuse_rounded rnd eps Hrnd Heps (rnd c1) (rnd c2) (rnd c3)
              (rnd c4) (rnd c5)) as (res & E & L & U & _); try lra.
  exists res. rewrite E. split; [reflexivity |]. split; [lra | reflexivity].
Qed.

Lemma X17_audio_score_range_witness :
  AudioRounded.rounds_within (fun y => y) 0
  /\ 0 <= 0 <= 1 / 100
  /\ exists res,
       AudioChecksRounded.analyze_audio (fun y => y)
         {| spectral_flux := 0; voiced_frames := 20; pitch_std := 1;
            pitch_range := 1; abruptness_ratio := 1; ratio := -30;
            large_jumps := 6 |} = Some res
       /\ 0.125 - 16 * 0 <= score res <= 0.7675 + 16 * 0.
Proof.
  assert (R : AudioRounded.rounds_within (fun y => y) 0).
  { intros y _. rewrite Rminus_diag, Rabs_R0. lra. }
  assert (E : 0 <= 0 <= 1 / 100) by lra.
  split; [exact R |]. split; [exact E |].
  destruct (X17_audio_score_range (fun y => y) 0
              {| spectral_flux := 0; voiced_frames := 20; pitch_std := 1;
                 pitch_range := 1; abruptness_ratio := 1; ratio := -30;
                 large_jumps := 6 |} R E) as (res & A & B & _).
  exists res. split; [exact A | exact B].
Defined.

End AudioRoundedExtras.

(** ** Explanation engine *)

Section ExplanationExtras.
Import Policy Explanation.
Local Open Scope Q_scope.

Variable show_percentage show_remainder : Q -> string.

Lemma get_missing (d : decision_dict) (k : string) (default : pyval) :
  ~ In k (map fst d) -> get d k default = default.
Proof.
  induction d as [| [k' v] d IH]; simpl; [reflexivity |].
  intro H. destruct (String.eqb_spec k k') as [-> | N].
  - elim H. now left.
  - apply IH. intro I. apply H. now right.
Qed.

(** The explanation of a decision returned by the policy rules reads the
    verdict and the risk level of that decision, never a default. *)
Lemma explanation_of_decision (score : Q) (d : PolicyDecision) :
  generate_explanation_from_decision show_percentage show_remainder score
    (to_dict d)
  = generate_explanation show_percentage show_remainder
      (PStr (verdict d)) score (PStr (risk_level d)).
Proof. reflexivity. Qed.

(** X19: for a verdict that is neither DEEPFAKE nor REAL (UNCERTAIN, or any
    other value) the explanation does not depend on the confidence or on how
    numbers are printed, and it starts with the fixed ambiguous-verdict
    sentence. *)
Theorem X19_ambiguous_ignores_confidence
    (show_percentage' show_remainder' : Q -> string)
    (v r : pyval) (c c' : Q)
    (Hd : eq_str v "DEEPFAKE" = false) (Hr : eq_str v "REAL" = false) :
  generate_explanation show_percentage show_remainder v c r
  = generate_explanation show_percentage' show_remainder' v c' r
  /\ exists tail : string,
       generate_explanation show_percentage show_remainder v c r
       = ("The analysis resulted in an ambiguous verdict." ++ tail)%string.
Proof.
  unfold generate_explanation. rewrite Hd, Hr.
  split; [reflexivity |]. eexists. reflexivity.
Qed.

(** X20: a decision dictionary that has neither a verdict nor a risk level
    is explained as an UNCERTAIN verdict at LOW risk, whatever the score. *)
Theorem X20_explanation_defaults (score : Q) (decision : decision_dict)
    (Hv : ~ In "verdict" (map fst decision))
    (Hr : ~ In "risk_level" (map fst decision)) :
  generate_explanation_from_decision show_percentage show_remainder score decision
  = "The analysis resulted in an ambiguous verdict. No significant anomalies detected."
  /\ generate_explanation_from_decision show_percentage show_remainder score decision
     = generate_explanation show_percentage show_remainder (PStr "UNCERTAIN") score (PStr "LOW").
Proof.
  unfold generate_explanation_from_decision.
  rewrite (get_missing _ _ _ Hv), (get_missing _ _ _ Hr).
  split; reflexivity.
Qed.

(** X21: under the shipped configuration every confidence strictly between
    0.40 and 0.75 is explained by one and the same text, whatever the
    verdict and risk level that went into the policy rules: the ambiguous
    verdict with the manual-verification sentence. *)
Theorem X21_shipped_band_explanation (v : string) (c : Q) (r : string)
    (Hlo : 0.40 < c) (Hhi : c < 0.75) :
  generate_explanation_from_decision show_percentage show_remainder c
    (to_dict (apply_policy_rules settings v c r))
  = "The analysis resulted in an ambiguous verdict. Significant anomalies were found. Manual verification is strongly recommended.".
Proof.
  assert (F2 : rule2_fires settings c = true)
    by (apply rule2_fires_iff; now split).
  assert (F1 : rule1_fires c = false).
  { destruct (rule1_fires c) eqn:F1; trivial.
    now rewrite (shipped_rules_disjoint c F1) in F2. }
  unfold apply_policy_rules, rule1, rule2. rewrite F1, F2. reflexivity.
Qed.

(** X22: the explanation of a policy decision agrees with the action it
    asks for: with MANUAL_INSPECTION the text ends with the CRITICAL or the
    HIGH sentence, with NONE it ends with the MEDIUM or the
    no-anomalies sentence. *)
Theorem X22_explanation_matches_action (s : Settings) (v : string) (c score : Q)
    (r : string) :
  let d := apply_policy_rules s v c r in
  let text := generate_explanation_from_decision show_percentage show_remainder score (to_dict d) in
  exists base : string,
    (action_required d = "MANUAL_INSPECTION"
     /\ (text = (base ++ " This media shows high-probability synthesis and should be treated as high-risk content.")%string
         \/ text = (base ++ " Significant anomalies were found. Manual verification is strongly recommended.")%string))
    \/ (action_required d = "NONE"
        /\ (text = (base ++ " The system encountered conflicting patterns. Please review the detailed analysis.")%string
            \/ text = (base ++ " No significant anomalies detected.")%string)).
Proof.
  cbv zeta. rewrite explanation_of_decision.
  set (d := apply_policy_rules s v c r).
  assert (A : action_required d
              = if needs_inspection (risk_level d)
                then "MANUAL_INSPECTION" else "NONE") by reflexivity.
  rewrite A. unfold generate_explanation, needs_inspection.
  cbn [eq_str].
  match goal with
  | |- context [(?b ++ (if String.eqb _ "CRITICAL" then _ else _))%string] =>
      exists b
  end.
  destruct (String.eqb_spec (risk_level d) "CRITICAL") as [E | N].
  - rewrite E. left. split; [reflexivity | now left].
  - destruct (String.eqb (risk_level d) "HIGH") eqn:H.
    + left. split; [reflexivity | now right].
    + right. split; [reflexivity |].
      destruct (String.eqb (risk_level d) "MEDIUM"); auto.
Qed.

End ExplanationExtras.

Section ExplanationWitnesses.
Import Policy Explanation.
Local Open Scope Q_scope.

Lemma X19_ambiguous_ignores_confidence_witness :
  eq_str (PStr "UNCERTAIN") "DEEPFAKE" = false
  /\ generate_explanation (fun _ => "n"%string) (fun _ => "m"%string)
       (PStr "UNCERTAIN") 0.1 (PStr "HIGH")
     = generate_explanation (fun _ => "n"%string) (fun _ => "m"%string)
         (PStr "UNCERTAIN") 0.9 (PStr "HIGH").
Proof.
  split; [reflexivity |].
  apply (X19_ambiguous_ignores_confidence
           (fun _ => "n"%string) (fun _ => "m"%string)
           (fun _ => "n"%string) (fun _ => "m"%string)
           (PStr "UNCERTAIN") (PStr "HIGH") 0.1 0.9); reflexivity.
Defined.

Lemma X20_explanation_defaults_witness :
  ~ In "verdict" (map fst (@nil (string * pyval)))
  /\ generate_explanation_from_decision (fun _ => "n"%string)
       (fun _ => "m"%string) 0.5 []
     = "The analysis resulted in an ambiguous verdict. No significant anomalies detected.".
Proof.
  assert (N : forall k : string, ~ In k (map fst (@nil (string * pyval))))
    by (intros k H; exact H).
  split; [apply N |].
  apply (X20_explanation_defaults (fun _ => "n"%string) (fun _ => "m"%string)
           0.5 [] (N _) (N _)).
Defined.

Lemma X21_shipped_band_explanation_witness :
  0.40 < 0.5 /\ 0.5 < 0.75
  /\ generate_explanation_from_decision (fun _ => "n"%string)
       (fun _ => "m"%string) 0.5
       (to_dict (apply_policy_rules settings "DEEPFAKE" 0.5 "HIGH"))
     = "The analysis resulted in an ambiguous verdict. Significant anomalies were found. Manual verification is strongly recommended.".
Proof.
  split; [reflexivity |]. split; [reflexivity |].
  apply (X21_shipped_band_explanation (fun _ => "n"%string)
           (fun _ => "m"%string) "DEEPFAKE" 0.5 "HIGH"); reflexivity.
Defined.

End ExplanationWitnesses.

(** ** Frame sampling *)

Section FrameFacts.
Import Policy Frames.
Local Open Scope Z_scope.

Variable frame : Type.

Lemma sample_loop_firstn (k max : Z) (stream : list (Z * frame))
    (acc : list frame) (count : Z) :
  count < max ->
  sample_loop frame k max stream acc count
  = (acc ++ firstn (Z.to_nat (max - count))
              (map snd (filter (fun p => fst p mod k =? 0) stream)))%list.
Proof.
  revert acc count. induction stream as [| [i f] rest IH]; intros acc count H.
  - simpl. now rewrite firstn_nil, app_nil_r.
  - cbn [sample_loop filter map fst snd].
    destruct (i mod k =? 0) eqn:E.
    + replace (Z.to_nat (max - count))
        with (S (Z.to_nat (max - (count + 1)))) by lia.
      cbn [map snd firstn].
      destruct (max <=? count + 1) eqn:M.
      * apply Z.leb_le in M.
        replace (Z.to_nat (max - (count + 1))) with 0%nat by lia.
        reflexivity.
      * apply Z.leb_gt in M. rewrite IH by lia.
        now rewrite <- app_assoc.
    + destruct (max <=? count) eqn:M; [apply Z.leb_le in M; lia |].
      now apply IH.
Qed.

Lemma int_of_integer (n : Z) : int (Finite (inject_Z n)) = Returned n.
Proof.
  unfold int. destruct (Qle_bool 0 (inject_Z n)).
  - now rewrite Qfloor_Z.
  - now rewrite Qceiling_Z.
Qed.

Lemma sample_interval_finite (rate : Z) (q : Q) :
  rate <> 0 ->
  sample_interval rate (Finite q)
  = Returned (Z.max (Qfloor (q / inject_Z rate)) 1).
Proof.
  intro H. unfold sample_interval, floordiv.
  destruct (Z.eqb_spec rate 0) as [E | _]; [contradiction |].
  now rewrite int_of_integer.
Qed.

Lemma sample_frames_returned (rate cap : Z) (q : Q)
    (stream : list (Z * frame)) :
  (0 < q)%Q -> rate <> 0 -> 0 < cap ->
  sample_frames frame rate cap {| fps := Finite q; frames := stream |}
  = Returned
      (firstn (Z.to_nat cap)
         (map snd
            (filter
               (fun p => fst p mod Z.max (Qfloor (q / inject_Z rate)) 1 =? 0)
               stream))).
Proof.
  intros Hfps Hrate Hcap. unfold sample_frames. cbn [fps frames le_zero].
  assert (E : Qle_bool q 0 = false) by now apply Qle_bool_gt.
  rewrite E, (sample_interval_finite rate q Hrate).
  rewrite sample_loop_firstn by exact Hcap.
  now rewrite Z.sub_0_r.
Qed.

Lemma frame_generator_from_snd (i : Z) (fs : list frame) :
  map snd (frame_generator_from frame i fs) = fs.
Proof.
  revert i. induction fs as [| f fs IH]; intro i; simpl; [reflexivity |].
  now rewrite IH.
Qed.

Lemma filter_all {A : Type} (p : A -> bool) (l : list A) :
  (forall x, p x = true) -> filter p l = l.
Proof.
  intro H. induction l as [| x l IH]; simpl; [reflexivity |].
  now rewrite H, IH.
Qed.

End FrameFacts.

Section FrameExtras.
Import Policy Frames.
Local Open Scope Z_scope.

(** X23: for a finite positive frame rate below [2 ** 51], a sample rate
    other than 0 of at most [2 ** 53] in absolute value (the range where
    the floor division of floats is exact) and a positive cap,
    [sample_frames] returns the frames whose index is a multiple of the
    sampling interval [max(floor(fps / FRAME_SAMPLE_RATE), 1)], in stream
    order, cut after the first [MAX_FRAMES] of them; so it never returns
    more than [MAX_FRAMES] frames. *)
Theorem X23_sample_frames_result (frame : Type) (rate cap : Z) (q : Q)
    (stream : list (Z * frame))
    (Hfps : (0 < q)%Q) (Hbelow : (q < inject_Z (2 ^ 51))%Q)
    (Hrate : rate <> 0) (Hexact : Z.abs rate <= 2 ^ 53)
    (Hcap : 0 < cap) :
  let k := Z.max (Qfloor (q / inject_Z rate)) 1 in
  let sampled :=
    firstn (Z.to_nat cap)
      (map snd (filter (fun p => fst p mod k =? 0) stream)) in
  sample_interval rate (Finite q) = Returned k
  /\ sample_frames frame rate cap {| fps := Finite q; frames := stream |}
     = Returned sampled
  /\ (Z.of_nat (List.length sampled) <= cap)
  /\ 1 <= k.
Proof.
  cbv zeta. split; [now apply sample_interval_finite |].
  split; [now apply sample_frames_returned |].
  split; [| lia].
  rewrite length_firstn. lia.
Qed.

Lemma X23_sample_frames_result_witness :
  (0 < 30)%Q /\ (30 < inject_Z (2 ^ 51))%Q
  /\ 10 <> 0 /\ Z.abs 10 <= 2 ^ 53 /\ 0 < 2
  /\ sample_frames nat 10 2
       {| fps := Finite 30;
          frames := frame_generator nat [10; 11; 12; 13; 14; 15; 16; 17]%nat |}
     = Returned [10; 13]%nat.
Proof.
  assert (R : 10 <> 0) by discriminate.
  assert (E : Z.abs 10 <= 2 ^ 53) by (intro H; discriminate H).
  split; [reflexivity |]. split; [reflexivity |]. split; [exact R |].
  split; [exact E |]. split; [reflexivity |].
  apply (X23_sample_frames_result nat 10 2 30
           (frame_generator nat [10; 11; 12; 13; 14; 15; 16; 17]%nat)
           eq_refl eq_refl R E eq_refl).
Defined.

(** X24: with a sample rate of at most [2 ** 53] in absolute value (one
    that converts to a float exactly), [sample_frames] returns a list
    exactly when the frame rate is finite and positive and the sample rate
    is not 0.  It raises ValueError when [fps <= 0]; otherwise
    ZeroDivisionError when the sample rate is 0; otherwise, for an
    infinite or nan frame rate, ValueError again. *)
Theorem X24_sample_frames_errors (frame : Type) (rate cap : Z)
    (v : video frame) (Hexact : Z.abs rate <= 2 ^ 53) :
  ((exists sampled, sample_frames frame rate cap v = Returned sampled)
   <-> (exists q, fps frame v = Finite q /\ (0 < q)%Q) /\ rate <> 0)
  /\ (le_zero (fps frame v) = true ->
      sample_frames frame rate cap v = Raised "ValueError")
  /\ (le_zero (fps frame v) = false -> rate = 0 ->
      sample_frames frame rate cap v = Raised "ZeroDivisionError")
  /\ (fps frame v = PosInf \/ fps frame v = NaN -> rate <> 0 ->
      sample_frames frame rate cap v = Raised "ValueError").
Proof.
  destruct v as [x stream]. unfold sample_frames. cbn [fps frames].
  split; [| split; [| split]].
  - split.
    + intros [sampled H]. destruct x as [q | | |]; cbn [le_zero] in H.
      * destruct (Qle_bool q 0) eqn:E; [discriminate |].
        apply Qle_bool_gt in E.
        destruct (Z.eq_dec rate 0) as [-> | N]; [discriminate |].
        split; [now exists q | exact N].
      * unfold sample_interval, floordiv in H.
        destruct (rate =? 0); discriminate.
      * discriminate.
      * unfold sample_interval, floordiv in H.
        destruct (rate =? 0); discriminate.
    + intros [(q & E & Hq) N]. subst x. cbn [le_zero].
      assert (L : Qle_bool q 0 = false) by now apply Qle_bool_gt.
      rewrite L, (sample_interval_finite rate q N). eexists. reflexivity.
  - intros ->. reflexivity.
  - intros -> ->. unfold sample_interval, floordiv. reflexivity.
  - intros [-> | ->] N; cbn [le_zero]; unfold sample_interval, floordiv;
      destruct (Z.eqb_spec rate 0); try contradiction; reflexivity.
Qed.

Lemma X24_sample_frames_errors_witness :
  Z.abs 10 <= 2 ^ 53
  /\ sample_frames nat 10 150 {| fps := NaN; frames := [] |}
     = Raised "ValueError"
  /\ sample_frames nat 10 150 {| fps := Finite 0; frames := [] |}
     = Raised "ValueError".
Proof.
  assert (E : Z.abs 10 <= 2 ^ 53) by (intro H; discriminate H).
  split; [exact E |].
  destruct (X24_sample_frames_errors nat 10 150
              {| fps := NaN; frames := [] |} E) as (_ & _ & _ & N).
  destruct (X24_sample_frames_errors nat 10 150
              {| fps := Finite 0; frames := [] |} E) as (_ & Z0 & _).
  split.
  - apply N; [right; reflexivity | discriminate].
  - apply Z0. reflexivity.
Defined.

(** X25: a video slower than twice the sample rate is not thinned: from
    the frames the capture delivers, [sample_frames] returns the first
    [MAX_FRAMES] in order, all of them when there are fewer. *)
Theorem X25_slow_video_not_thinned (frame : Type) (rate cap : Z)
    (video_fps : Q) (fs : list frame)
    (Hrate : 0 < rate) (Hcap : 0 < cap)
    (Hfps : (0 < video_fps)%Q)
    (Hslow : (video_fps < inject_Z (2 * rate))%Q) :
  sample_interval rate (Finite video_fps) = Returned 1
  /\ sample_frames frame rate cap
       {| fps := Finite video_fps; frames := frame_generator frame fs |}
     = Returned (firstn (Z.to_nat cap) fs).
Proof.
  assert (N : rate <> 0) by lia.
  assert (K : Z.max (Qfloor (video_fps / inject_Z rate)%Q) 1 = 1).
  { assert (R0 : (0 < inject_Z rate)%Q).
    { change 0%Q with (inject_Z 0). now rewrite <- Zlt_Qlt. }
    assert (L : (video_fps / inject_Z rate < 2)%Q).
    { apply Qlt_shift_div_r; [exact R0 |].
      change 2%Q with (inject_Z 2). rewrite <- inject_Z_mult. exact Hslow. }
    pose proof (Qfloor_le (video_fps / inject_Z rate)%Q) as F.
    assert (F2 : Qfloor (video_fps / inject_Z rate)%Q < 2).
    { rewrite Zlt_Qlt.
      now apply Qle_lt_trans with (video_fps / inject_Z rate)%Q. }
    lia. }
  split; [now rewrite (sample_interval_finite rate video_fps N), K |].
  rewrite (sample_frames_returned frame rate cap video_fps _ Hfps N Hcap).
  rewrite K. f_equal. f_equal.
  rewrite filter_all by (intros [i f]; cbn [fst]; now rewrite Z.mod_1_r).
  apply frame_generator_from_snd.
Qed.

Lemma X25_slow_video_not_thinned_witness :
  0 < FRAME_SAMPLE_RATE /\ 0 < MAX_FRAMES
  /\ (0 < 15)%Q /\ (15 < inject_Z (2 * FRAME_SAMPLE_RATE))%Q
  /\ sample_frames nat FRAME_SAMPLE_RATE MAX_FRAMES
       {| fps := Finite 15; frames := frame_generator nat [7; 8; 9]%nat |}
     = Returned [7; 8; 9]%nat.
Proof.
  split; [reflexivity |]. split; [reflexivity |].
  split; [reflexivity |]. split; [reflexivity |].
  apply (X25_slow_video_not_thinned nat FRAME_SAMPLE_RATE MAX_FRAMES 15
           [7; 8; 9]%nat); reflexivity.
Defined.

End FrameExtras.
